(** * LAMatHome: the journal polling, deduplication and dispatch engine

    A shallow embedding of [src/main.py] and the properties of its
    specification. The Python program drives a browser (Playwright), a
    SQLite table and two session files. Here

    - a Python [str] is a Rocq [string], one [ascii] per code point: the
      embedding covers the code points U+0000 to U+00FF;
    - the file system is a finite map from paths to file contents, next to
      the set of directories that were made;
    - the [entries] table is the list of its rows in insertion order,
      together with its AUTOINCREMENT counter, a natural number without
      bound; a database in which the table was never created has none;
    - the browser is an oracle: what a query answers is a function of the
      number of records written before it, and every interaction is
      recorded, with its answer, in a chronological trace;
    - a Python exception is the left summand of the result of a
      computation in a state-and-exception monad. The exceptions are the
      ones the program handles or provokes: a wait that times out, an
      index out of range, a table that is missing, a session file that
      is missing or is not JSON when Playwright loads it. Other calls of
      the page driver are taken to return. *)

From Stdlib Require Import ZArith NArith Lia Ascii String.
From stdpp Require Import gmap strings list.

(** ** Python string operations used by the program *)

Module Py.

Definition code (c : ascii) : N := N_of_ascii c.

Definition between (lo hi : N) (c : ascii) : bool :=
  ((lo <=? code c) && (code c <=? hi))%N.

(** [str.isspace] on one code point below U+0100: TAB, LF, VT, FF, CR,
    FS, GS, RS, US, SPACE, NEL and NBSP. *)
Definition isspace (c : ascii) : bool :=
  between 9 13 c || between 28 32 c || (code c =? 133)%N || (code c =? 160)%N.

(** [str.lower] on one code point below U+0100: A-Z, and the Latin-1
    capitals U+00C0..U+00DE except the multiplication sign U+00D7. *)
Definition lower_char (c : ascii) : ascii :=
  if between 65 90 c || (between 192 222 c && negb (code c =? 215)%N)
  then ascii_of_N (code c + 32)
  else c.

Fixpoint lower (s : string) : string :=
  match s with
  | EmptyString => EmptyString
  | String c s' => String (lower_char c) (lower s')
  end.

Definition of_rev (word : list ascii) : string :=
  string_of_list_ascii (rev word).

(** [s.split()]: the maximal runs of non-whitespace code points, in
    order; [word] holds the current run, last code point first. *)
Fixpoint split_aux (word : list ascii) (s : string) : list string :=
  match s with
  | EmptyString =>
      match word with
      | [] => []
      | _ => [of_rev word]
      end
  | String c s' =>
      if isspace c then
        match word with
        | [] => split_aux [] s'
        | _ => of_rev word :: split_aux [] s'
        end
      else split_aux (c :: word) s'
  end.

Definition split (s : string) : list string := split_aux [] s.

Fixpoint lstrip (p : ascii -> bool) (s : string) : string :=
  match s with
  | EmptyString => EmptyString
  | String c s' => if p c then lstrip p s' else s
  end.

Definition reverse (s : string) : string :=
  string_of_list_ascii (rev (list_ascii_of_string s)).

Definition rstrip (p : ascii -> bool) (s : string) : string :=
  reverse (lstrip p (reverse s)).

(** [s.strip()] *)
Definition strip (s : string) : string := rstrip isspace (lstrip isspace s).

Fixpoint mem_char (c : ascii) (chars : string) : bool :=
  match chars with
  | EmptyString => false
  | String d chars' => Ascii.eqb c d || mem_char c chars'
  end.

(** [s.strip(chars)] *)
Definition strip_chars (chars : string) (s : string) : string :=
  rstrip (fun c => mem_char c chars) (lstrip (fun c => mem_char c chars) s).

(** [sep.join(words)] *)
Definition join (sep : string) (words : list string) : string :=
  String.concat sep words.

Definition is_az (c : ascii) : bool := between 97 122 c.

(** [re.match(r'^[a-z]+$', s) is not None]: one or more of a-z, then the
    end of the string or a single newline that ends the string. *)
Definition re_match_az (s : string) : bool :=
  match s with
  | EmptyString => false
  | String c _ =>
      is_az c &&
      match lstrip is_az s with
      | EmptyString => true
      | String d EmptyString => (code d =? 10)%N
      | _ => false
      end
  end.

End Py.

(** ** The world the program runs in *)

Inductive Level := INFO | ERROR.

(** Python exceptions the program can meet. *)
Inductive Exn :=
| TimeoutError        (* playwright: a wait ran out of time *)
| IndexError          (* list index out of range *)
| OperationalError    (* sqlite3: no such table *)
| FileNotFoundError   (* a path that is read does not exist *)
| JSONDecodeError.    (* a session file that is not JSON is parsed *)

(** A browsing context or a page is named by the position, in the trace,
    of the interaction that created it. *)
Definition Handle := nat.

(** One interaction with the browser, or one log record. A query carries
    the answer the browser gave; a new context carries the session it was
    restored from, the content of the file that was named. *)
Inductive Event :=
| Launch
| NewContext (restored : option string)
| NewPage (context : Handle)
| Goto (page : Handle) (url : string)
| WaitForLoadState (page : Handle) (state : string)
| IsVisible (page : Handle) (selector : string) (answer : bool)
| WaitForSelector (page : Handle) (selector : string) (timeout : Z) (appeared : bool)
| Reload (page : Handle)
| Fill (page : Handle) (selector value : string)
| Press (page : Handle) (selector key : string)
| Click (page : Handle) (selector : string)
| WaitForTimeout (page : Handle) (ms : Z)
| StorageState (context : Handle) (path : string)
| ContextClose (context : Handle)
| Count (page : Handle) (selector : string) (answer : nat)
| SvgCount (page : Handle) (selector : string) (index : nat) (answer : nat)
| ClickNth (page : Handle) (selector : string) (index : nat)
| TextContent (page : Handle) (selector : string) (answer : string)
| Log (level : Level) (message : string)
| LogExn (level : Level) (message : string) (e : Exn).

(** What the browser and its driver answer. The first argument is the
    time of the query: the number of trace records written before it. *)
Record Browser := {
  visible : nat -> string -> bool;
  appears : nat -> string -> Z -> bool;   (* false: the wait times out *)
  count_of : nat -> string -> nat;
  svg_count_of : nat -> string -> nat -> nat;
  text_of : nat -> string -> string;
  session_json : nat -> string;           (* what storage_state(path=...) writes *)
  parses : string -> bool                 (* json.loads(text) returns *)
}.

(** A row of [entries (id INTEGER PRIMARY KEY AUTOINCREMENT, title TEXT,
    date TEXT, time TEXT)]. *)
Record Row := {
  row_id : N;
  row_title : string;
  row_date : string;
  row_time : string
}.

(** The table with its AUTOINCREMENT counter (the largest id handed out). *)
Record Table := {
  rows : list Row;
  seq : N
}.

(** What the program can see and change: directories, files, the
    ledger, and the trace of what it did to the browser and the log. *)
Record State := {
  dirs : gset string;
  files : gmap string string;
  db : option Table;            (* [None]: the table was never created *)
  trace : list Event
}.

Definition set_dirs (f : gset string -> gset string) (s : State) : State :=
  {| dirs := f (dirs s); files := files s; db := db s; trace := trace s |}.

Definition set_files (f : gmap string string -> gmap string string) (s : State) : State :=
  {| dirs := dirs s; files := f (files s); db := db s; trace := trace s |}.

Definition set_db (d : option Table) (s : State) : State :=
  {| dirs := dirs s; files := files s; db := d; trace := trace s |}.

(** One more record at the end of the trace. *)
Definition record (e : Event) (s : State) : State :=
  {| dirs := dirs s; files := files s; db := db s; trace := trace s ++ [e] |}.

(** ** A state-and-exception monad *)

Definition M (A : Type) : Type := State -> (Exn + A) * State.

Definition ret {A : Type} (a : A) : M A := fun s => (inr a, s).

Definition bind {A B : Type} (m : M A) (f : A -> M B) : M B := fun s =>
  match m s with
  | (inr a, s') => f a s'
  | (inl e, s') => (inl e, s')
  end.

Declare Scope M_scope.
Delimit Scope M_scope with M.
Bind Scope M_scope with M.

Notation "x <- m ;; k" := (bind m (fun x => k))
  (at level 100, m at next level, k at level 200, right associativity) : M_scope.
Notation "m ;; k" := (bind m (fun _ => k))
  (at level 100, k at level 200, right associativity) : M_scope.

Open Scope M_scope.

Definition raise {A : Type} (e : Exn) : M A := fun s => (inl e, s).

(** [try: body except Exception as e: handler e] *)
Definition try_except {A : Type} (body : M A) (handler : Exn -> M A) : M A := fun s =>
  match body s with
  | (inr a, s') => (inr a, s')
  | (inl e, s') => handler e s'
  end.

Definition emit (e : Event) : M unit := fun s => (inr tt, record e s).

(** The time: how many records were written so far. *)
Definition now : M nat := fun s => (inr (length (trace s)), s).

(** [xs[i]] *)
Definition index {A : Type} (xs : list A) (i : nat) : M A :=
  match xs !! i with
  | Some x => ret x
  | None => raise IndexError
  end.

(** *** logging *)

Definition log (level : Level) (message : string) : M unit :=
  emit (Log level message).

(** *** os, open, json *)

Definition makedirs (path : string) : M unit := fun s =>
  (inr tt, set_dirs (fun d => {[path]} ∪ d) s).

Definition path_exists (path : string) : M bool := fun s =>
  (inr (bool_decide (is_Some (files s !! path))), s).

Definition stat_size (path : string) : M nat := fun s =>
  match files s !! path with
  | Some content => (inr (String.length content), s)
  | None => (inl FileNotFoundError, s)
  end.

Definition write_file (path content : string) : M unit := fun s =>
  (inr tt, set_files (fun fs => <[path := content]> fs) s).

(** *** the page driver *)

Definition launch : M unit := emit Launch.

(** [json.loads(content)] returns. The parser is Python's: its verdict is
    the driver's, except on the two texts the program itself is concerned
    with: the empty text is not JSON, and [{}], which line 138 writes,
    is. *)
Definition json_loads (br : Browser) (content : string) : bool :=
  match content with
  | EmptyString => false
  | _ => String.eqb content "{}" || parses br content
  end.

(** [browser.new_context(storage_state=...)]: given a path, Playwright
    reads the file and parses it with [json.loads]; a missing file and a
    text that is not JSON make it raise. *)
Definition new_context (br : Browser) (storage_state : option string) : M Handle :=
  fun s =>
  match storage_state with
  | None => (inr (length (trace s)), record (NewContext None) s)
  | Some path =>
      match files s !! path with
      | None => (inl FileNotFoundError, s)
      | Some content =>
          if json_loads br content
          then (inr (length (trace s)), record (NewContext (Some content)) s)
          else (inl JSONDecodeError, s)
      end
  end.

Definition new_page (context : Handle) : M Handle :=
  h <- now ;; emit (NewPage context);; ret h.

Definition goto (page : Handle) (url : string) : M unit := emit (Goto page url).

Definition wait_for_load_state (page : Handle) (state : string) : M unit :=
  emit (WaitForLoadState page state).

Definition is_visible (br : Browser) (page : Handle) (selector : string) : M bool :=
  t <- now ;;
  let b := visible br t selector in
  emit (IsVisible page selector b);; ret b.

Definition wait_for_selector (br : Browser) (page : Handle) (selector : string)
    (timeout : Z) : M unit :=
  t <- now ;;
  let ok := appears br t selector timeout in
  emit (WaitForSelector page selector timeout ok);;
  if ok then ret tt else raise TimeoutError.

Definition reload (page : Handle) : M unit := emit (Reload page).

Definition fill (page : Handle) (selector value : string) : M unit :=
  emit (Fill page selector value).

Definition press (page : Handle) (selector key : string) : M unit :=
  emit (Press page selector key).

Definition click (page : Handle) (selector : string) : M unit :=
  emit (Click page selector).

Definition wait_for_timeout (page : Handle) (ms : Z) : M unit :=
  emit (WaitForTimeout page ms).

(** [context.storage_state(path=path)] writes the session as JSON. *)
Definition storage_state (br : Browser) (context : Handle) (path : string) : M unit :=
  t <- now ;;
  write_file path (session_json br t);;
  emit (StorageState context path).

Definition context_close (context : Handle) : M unit := emit (ContextClose context).

(** [page.locator(selector).count()] *)
Definition locator_count (br : Browser) (page : Handle) (selector : string) : M nat :=
  t <- now ;;
  let n := count_of br t selector in
  emit (Count page selector n);; ret n.

(** [page.locator(selector).nth(i).locator('svg').count()] *)
Definition nth_svg_count (br : Browser) (page : Handle) (selector : string)
    (i : nat) : M nat :=
  t <- now ;;
  let n := svg_count_of br t selector i in
  emit (SvgCount page selector i n);; ret n.

(** [page.locator(selector).nth(i).click()] *)
Definition nth_click (page : Handle) (selector : string) (i : nat) : M unit :=
  emit (ClickNth page selector i).

(** [page.locator(selector).text_content()] *)
Definition text_content (br : Browser) (page : Handle) (selector : string) : M string :=
  t <- now ;;
  let v := text_of br t selector in
  emit (TextContent page selector v);; ret v.

(** ** Telegram integration ([Telegram], lines 14-76) *)

Definition telegram_session_file : string := "sessions/telegram_state.json".
(** The double quote, for selectors that hold one. *)
Definition dq : string := String (ascii_of_nat 34) EmptyString.

Definition search_bar : string := "[placeholder=" +:+ dq +:+ " " +:+ dq +:+ "]".
Definition chat_result : string := ".search-super-content-chats a".
Definition message_input : string := ".input-message-input:nth-child(1)".
Definition send_button : string := ".btn-send > .c-ripple".

(** Lines 39-46: [for _ in range(n)], one wait per round, a reload after
    each wait that timed out. The result is [login_successful]. *)
Fixpoint telegram_login (br : Browser) (page : Handle) (n : nat) : M bool :=
  match n with
  | O => ret false
  | S n' =>
      ok <- try_except
             (wait_for_selector br page search_bar 30000;; ret true)
             (fun _ => reload page;; ret false) ;;
      if ok then ret true else telegram_login br page n'
  end.

(** Lines 15-26: the browsing context of this call, restored from the
    session file when there is one, and its page on the chat site. *)
Definition telegram_open (br : Browser) : M (Handle * Handle) :=
  let session_file := telegram_session_file in
  makedirs "sessions";;
  saved <- path_exists session_file ;;
  context <- new_context br (if saved then Some session_file else None) ;;
  page <- new_page context ;;
  goto page "https://web.telegram.org/k/";;
  logged_in <- is_visible br page "text=Chats" ;;
  (if logged_in then log INFO "Already logged in to Telegram."
   else log INFO "Telegram session expired, logging in again.");;
  ret (context, page).

(** Lines 36-76: log in, look the conversation up, send the message. *)
Definition telegram_send (br : Browser) (context page : Handle)
    (user_search message : string) : M unit :=
  let session_file := telegram_session_file in
  log INFO ("User to search: " +:+ user_search);;
  log INFO ("Message to send: " +:+ message);;
  login_successful <- telegram_login br page 3 ;;
  if login_successful then
    storage_state br context session_file;;
    fill page search_bar user_search;;
    press page search_bar "Enter";;
    wait_for_timeout page 1000;;
    found <- is_visible br page chat_result ;;
    if found then
      click page chat_result;;
      wait_for_timeout page 1000;;
      fill page message_input message;;
      click page send_button;;
      log INFO ("Sent message to " +:+ user_search +:+ ": " +:+ message);;
      storage_state br context session_file;;
      context_close context
    else
      log ERROR "No users found, aborting.";;
      context_close context
  else
    log ERROR "Failed to log in to Telegram after multiple attempts";;
    context_close context.

Definition Telegram (br : Browser) (title : string) : M unit :=
  opened <- telegram_open br ;;
  let '(context, page) := opened in
  let words := Py.split title in
  if (length words <? 3)%nat then
    log ERROR "Invalid prompt format for Telegram message."
  else
    user_search <- index words 1 ;;
    let message := Py.join " " (drop 2 words) in
    telegram_send br context page user_search message.

(** ** Database (lines 102-123) *)

(** [CREATE TABLE IF NOT EXISTS entries ...] *)
Definition init_db : M unit := fun s =>
  match db s with
  | Some _ => (inr tt, s)
  | None => (inr tt, set_db (Some {| rows := []; seq := 0 |}) s)
  end.

Definition row_matches (title date time : string) (r : Row) : bool :=
  String.eqb (row_title r) title && String.eqb (row_date r) date
  && String.eqb (row_time r) time.

(** [SELECT * FROM entries WHERE title = ? AND date = ? AND time = ?],
    then [fetchone() is not None] *)
Definition entry_exists (title date time : string) : M bool := fun s =>
  match db s with
  | Some t => (inr (existsb (row_matches title date time) (rows t)), s)
  | None => (inl OperationalError, s)
  end.

(** The table after one more row: the new id is one above the counter. *)
Definition insert_row (title date time : string) (t : Table) : Table :=
  let r := {| row_id := seq t + 1; row_title := title;
              row_date := date; row_time := time |} in
  {| rows := rows t ++ [r]; seq := seq t + 1 |}.

(** [INSERT INTO entries (title, date, time) VALUES (?, ?, ?)] *)
Definition save_entry (title date time : string) : M unit := fun s =>
  match db s with
  | Some t => (inr tt, set_db (Some (insert_row title date time t)) s)
  | None => (inl OperationalError, s)
  end.

(** ** Main (lines 129-201) *)

Definition state_file : string := "sessions/rabbithole_state.json".
Definition entry_list : string := ".w-full:nth-child(2) > .mb-8 li".
Definition title_text : string := ".text-white-400".
Definition date_text : string := ".text-sm > div:nth-child(1)".
Definition time_text : string := ".text-sm > div:nth-child(2)".
Definition submit_button : string :=
  "button[type=" +:+ dq +:+ "submit" +:+ dq +:+ "][data-action-button-primary="
  +:+ dq +:+ "true" +:+ dq +:+ "]".

(** Lines 132-138: the session file of the journal site is made to exist
    and, when it was empty, to hold [{}]. *)
Definition main_state_file : M unit :=
  makedirs "sessions";;
  there <- path_exists state_file ;;
  fresh <- (if negb there then ret true
           else size <- stat_size state_file ;; ret (size =? 0)%nat) ;;
  if fresh then write_file state_file "{}" else ret tt.

(** Lines 132-143: the browser, and the browsing context and page of the
    journal site, restored from the session file. *)
Definition main_open (br : Browser) : M (Handle * Handle) :=
  main_state_file;;
  launch;;
  context <- new_context br (Some state_file) ;;
  page <- new_page context ;;
  ret (context, page).

(** Lines 145-155: log in to the journal site. *)
Definition main_login (br : Browser) (RH_EMAIL RH_PASS : string)
    (context page : Handle) : M unit :=
  goto page "https://hole.rabbit.tech";;
  form <- is_visible br page "input#username" ;;
  if negb form then
    log INFO "Already logged in."
  else
    wait_for_selector br page "input#username" 30000;;
    fill page "input#username" RH_EMAIL;;
    wait_for_selector br page "input#password" 30000;;
    fill page "input#password" RH_PASS;;
    click page submit_button;;
    wait_for_load_state page "load";;
    storage_state br context state_file.

(** Lines 172-177: [for i in range(n)] from entry [i] on; the result is
    [found_valid_entry]. *)
Fixpoint scan_entries (br : Browser) (page : Handle) (i n : nat) : M bool :=
  match n with
  | O => ret false
  | S n' =>
      svgs <- nth_svg_count br page entry_list i ;;
      if (svgs =? 0)%nat then nth_click page entry_list i;; ret true
      else scan_entries br page (S i) n'
  end.

Definition punctuation : string := ".,!?:;".

(** Lines 196-201: the first word decides whether [Telegram] is called. *)
Definition dispatch (br : Browser) (title : string) : M unit :=
  word <- index (Py.split title) 0 ;;
  let first_word := Py.strip_chars punctuation (Py.lower (Py.strip word)) in
  log INFO ("First word of title: " +:+ first_word);;
  if Py.re_match_az first_word && String.eqb first_word "telegram" then
    log INFO ("Calling Telegram function with title: " +:+ title);;
    Telegram br title
  else ret tt.

(** Lines 188-201: the ledger is asked before anything is saved. *)
Definition dedup (br : Browser) (title date time : string) : M unit :=
  known <- entry_exists title date time ;;
  if known then
    log INFO "DB entry already exists, reloading to check for new entries..."
  else
    save_entry title date time;;
    log INFO ("Saved entry: " +:+ title +:+ ", " +:+ date +:+ ", " +:+ time);;
    dispatch br title.

(** Lines 184-201: read the entry that was opened and hand it on. *)
Definition process_entry (br : Browser) (page : Handle) : M unit :=
  title <- text_content br page title_text ;;
  date <- text_content br page date_text ;;
  time <- text_content br page time_text ;;
  dedup br title date time.

(** Lines 158-201: one round of [while True]. A round that ends early
    ([continue]) returns like any other. *)
Definition poll_cycle (br : Browser) (page : Handle) : M unit :=
  goto page "https://hole.rabbit.tech/journal/details";;
  wait_for_load_state page "load";;
  log INFO "Waiting for journal entries to appear...";;
  listed <- try_except
             (wait_for_selector br page entry_list 15000;; ret true)
             (fun e => emit (LogExn ERROR "Error waiting for journal entries: " e);;
                       ret false) ;;
  if negb listed then ret tt
  else
    n <- locator_count br page entry_list ;;
    found_valid_entry <- scan_entries br page 0 n ;;
    if negb found_valid_entry then
      log INFO "No valid entries without SVG found, reloading..."
    else
      process_entry br page.

(** The first [cycles] rounds of [while True]; an exception that leaves a
    round ends the loop. *)
Fixpoint poll_loop (br : Browser) (page : Handle) (cycles : nat) : M unit :=
  match cycles with
  | O => ret tt
  | S k => poll_cycle br page;; poll_loop br page k
  end.

Definition main (br : Browser) (RH_EMAIL RH_PASS : string) (cycles : nat) : M unit :=
  init_db;;
  opened <- main_open br ;;
  let '(context, page) := opened in
  main_login br RH_EMAIL RH_PASS context page;;
  poll_loop br page cycles.

(** ** The vocabulary of the properties *)

(** What was recorded between state [s] and a later state [s']. *)
Definition events_since (s s' : State) : list Event :=
  drop (length (trace s)) (trace s').

(** A fresh environment: no directory, no file, no table, nothing done. *)
Definition initial : State :=
  {| dirs := ∅; files := ∅; db := None; trace := [] |}.

(** State [s] with the records [evs] added to its trace. *)
Definition extend (evs : list Event) (s : State) : State :=
  {| dirs := dirs s; files := files s; db := db s; trace := trace s ++ evs |}.

(** A run from [s] to [s'] wrote only records that satisfy [Q], and took
    the ledger from one content to another related by [D]. *)
Definition step (Q : Event -> Prop) (D : option Table -> option Table -> Prop)
    (s s' : State) : Prop :=
  (exists evs, trace s' = trace s ++ evs /\ Forall Q evs) /\ D (db s) (db s').

(** Every run of [m] is such a step, however it ends. *)
Definition keeps {A : Type} (Q : Event -> Prop)
    (D : option Table -> option Table -> Prop) (m : M A) : Prop :=
  forall s r s', m s = (r, s') -> step Q D s s'.

(** The records the messaging handler can write. *)
Definition telegram_event (e : Event) : bool :=
  match e with
  | NewContext _ | NewPage _ | Goto _ _ | IsVisible _ _ _
  | WaitForSelector _ _ _ _ | Reload _ | Fill _ _ _ | Press _ _ _
  | Click _ _ | WaitForTimeout _ _ | StorageState _ _ | ContextClose _
  | Log _ _ => true
  | _ => false
  end.

(** The keyword of a command, in the words of the specification: the
    first token, lowercased, with surrounding punctuation stripped. *)
Definition spec_keyword (token : string) : string :=
  Py.strip_chars punctuation (Py.lower token).

(** The session bootstrap, in the words of the specification: when the
    session file is missing or empty, loading succeeds and leaves a
    well-formed empty JSON file behind. *)
Definition session_bootstrap {A : Type} (load : M A) (file : string) : Prop :=
  forall s,
    files s !! file = None \/ files s !! file = Some EmptyString ->
    exists a s', load s = (inr a, s') /\ files s' !! file = Some "{}".

(** A browser on which nothing ever shows up. *)
Definition blank_browser : Browser :=
  {| visible := fun _ _ => false;
     appears := fun _ _ _ => false;
     count_of := fun _ _ => 0;
     svg_count_of := fun _ _ _ => 0;
     text_of := fun _ _ => EmptyString;
     session_json := fun _ => "{}";
     parses := fun _ => false |}.

(** What the scan of lines 172-177 writes when it starts at entry [i] with
    [n] entries to go: a count for each entry it passes, all of them non
    zero, and, when it stops early, a zero count and the click. *)
Inductive scanned (page : Handle) : nat -> nat -> list Event -> bool -> Prop :=
| scanned_none i : scanned page i 0 [] false
| scanned_hit i n :
    scanned page i (S n)
      [SvgCount page entry_list i 0; ClickNth page entry_list i] true
| scanned_skip i n c evs b :
    c <> 0%nat ->
    scanned page (S i) n evs b ->
    scanned page i (S n) (SvgCount page entry_list i c :: evs) b.

(** What every round writes first. *)
Definition cycle_header (page : Handle) : list Event :=
  [Goto page "https://hole.rabbit.tech/journal/details";
   WaitForLoadState page "load";
   Log INFO "Waiting for journal entries to appear..."].

(** The natural key of a row. *)
Definition row_key (r : Row) : string * string * string :=
  (row_title r, row_date r, row_time r).

(** At most one row for a key. *)
Definition unique_keys (d : option Table) : Prop :=
  forall t, d = Some t -> NoDup (map row_key (rows t)).

(** The ledger only gained rows, after the ones it had. *)
Definition grows (d d' : option Table) : Prop :=
  forall t, d = Some t -> exists t', d' = Some t' /\ rows t `prefix_of` rows t'.

(** Everything the program can do to a state: its functions, and a round
    of its loop. *)
Inductive Operation :=
| OpInitDb
| OpEntryExists (title date time : string)
| OpSaveEntry (title date time : string)
| OpTelegram (br : Browser) (title : string)
| OpPollCycle (br : Browser) (page : Handle)
| OpMain (br : Browser) (RH_EMAIL RH_PASS : string) (cycles : nat).

(** The state an operation leaves, whether it returned or raised. *)
Definition run_op (op : Operation) (s : State) : State :=
  match op with
  | OpInitDb => (init_db s).2
  | OpEntryExists title date time => (entry_exists title date time s).2
  | OpSaveEntry title date time => (save_entry title date time s).2
  | OpTelegram br title => (Telegram br title s).2
  | OpPollCycle br page => (poll_cycle br page s).2
  | OpMain br RH_EMAIL RH_PASS cycles => (main br RH_EMAIL RH_PASS cycles s).2
  end.

Definition run_ops (ops : list Operation) (s : State) : State :=
  foldl (fun s op => run_op op s) s ops.

(** A journal that lists a marked entry and then a plain one, whose
    detail view shows [title], and a chat site on which the search bar
    shows up and no conversation is found. *)
Definition journal_browser (title : string) : Browser :=
  {| visible := fun _ _ => false;
     appears := fun _ _ _ => true;
     count_of := fun _ _ => 2%nat;
     svg_count_of := fun _ _ i => (1 - i)%nat;
     text_of := fun _ selector =>
       if String.eqb selector title_text then title else "today";
     session_json := fun _ => "{}";
     parses := fun _ => false |}.

(** A state whose ledger holds the rows [rs]. *)
Definition with_ledger (rs : list Row) : State :=
  {| dirs := ∅; files := ∅;
     db := Some {| rows := rs; seq := N.of_nat (length rs) |}; trace := [] |}.

(** What a round writes up to and including the three reads of the entry
    it opened. *)
Definition cycle_reads (page : Handle) (n : nat) (evs : list Event)
    (title date time : string) : list Event :=
  cycle_header page ++
  WaitForSelector page entry_list 15000 true ::
  Count page entry_list n :: evs ++
  [TextContent page title_text title;
   TextContent page date_text date;
   TextContent page time_text time].

(** The line that [dedup] logs after it saved an entry. *)
Definition saved_message (title date time : string) : string :=
  "Saved entry: " +:+ title +:+ ", " +:+ date +:+ ", " +:+ time.

(** A ledger that already holds the entry [journal_browser] shows for the
    title below. *)
Definition seen_title : string := "telegram alice hi".

Definition seen_state : State :=
  with_ledger [{| row_id := 1; row_title := seen_title;
                  row_date := "today"; row_time := "today" |}].

(** ** More vocabulary: the handler, the ledger and the start of the program *)

(** [k] rounds of the login loop that timed out: a wait, then a reload. *)
Fixpoint failed_rounds (page : Handle) (k : nat) : list Event :=
  match k with
  | O => []
  | S k' =>
      WaitForSelector page search_bar 30000 false :: Reload page ::
      failed_rounds page k'
  end.

(** A record that the handler writes on its own context [c] and page [p],
    or to the log. *)
Definition own_event (c p : Handle) (e : Event) : Prop :=
  match e with
  | NewContext _ | Log _ _ => True
  | NewPage c' | StorageState c' _ | ContextClose c' => c' = c
  | Goto p' _ | IsVisible p' _ _ | WaitForSelector p' _ _ _ | Reload p'
  | Fill p' _ _ | Press p' _ _ | Click p' _ | WaitForTimeout p' _ => p' = p
  | _ => False
  end.

(** A chat site on which the search bar shows up and the conversation is
    found. *)
Definition chat_browser : Browser :=
  {| visible := fun _ _ => true;
     appears := fun _ _ _ => true;
     count_of := fun _ _ => 0%nat;
     svg_count_of := fun _ _ _ => 0%nat;
     text_of := fun _ _ => EmptyString;
     session_json := fun _ => "{}";
     parses := fun _ => false |}.

(** The ids of the table are positive, at most the counter, and grow with
    the position of the row. *)
Definition ids_ordered (d : option Table) : Prop :=
  forall t, d = Some t ->
    (forall r, In r (rows t) -> (0 < row_id r <= seq t)%N)
    /\ (forall i j ri rj,
          rows t !! i = Some ri -> rows t !! j = Some rj -> (i < j)%nat ->
          (row_id ri < row_id rj)%N).

(** [n] rounds of the loop in which the list of entries did not show up. *)
Fixpoint timed_out_rounds (page : Handle) (n : nat) : list Event :=
  match n with
  | O => []
  | S n' =>
      cycle_header page ++
      WaitForSelector page entry_list 15000 false ::
      LogExn ERROR "Error waiting for journal entries: " TimeoutError ::
      timed_out_rounds page n'
  end.

(** The lines a round logs when it hands nothing on. *)
Definition round_log (message : string) : Prop :=
  message = "Waiting for journal entries to appear..."
  \/ message = "No valid entries without SVG found, reloading..."
  \/ message = "DB entry already exists, reloading to check for new entries...".

(** A record of a round that opens no entry: navigation, waits, counts
    and the lines above. *)
Definition scan_only (page : Handle) (e : Event) : Prop :=
  match e with
  | Goto p _ | WaitForLoadState p _ | WaitForSelector p _ _ _ | Count p _ _
  | SvgCount p _ _ _ => p = page
  | Log INFO message => round_log message
  | LogExn _ _ _ => True
  | _ => False
  end.

(** A record of a round that may open and read an entry but hands
    nothing on to the dispatcher. *)
Definition journal_only (page : Handle) (e : Event) : Prop :=
  match e with
  | ClickNth p _ _ | TextContent p _ _ => p = page
  | _ => scan_only page e
  end.


(** A journal that lists one plain entry, whose detail view shows
    [title]. *)
Definition plain_browser (title : string) : Browser :=
  {| visible := fun _ _ => false;
     appears := fun _ _ _ => true;
     count_of := fun _ _ => 1%nat;
     svg_count_of := fun _ _ _ => 0%nat;
     text_of := fun _ selector =>
       if String.eqb selector title_text then title else "today";
     session_json := fun _ => "{}";
     parses := fun _ => false |}.

(** How [main] can end: normally, when its rounds are used up, or with
    one of three exceptions. *)
Definition main_result (r : Exn + unit) : Prop :=
  r = inr tt \/ r = inl TimeoutError \/ r = inl IndexError
  \/ r = inl JSONDecodeError.

(** A token: not empty, and without a whitespace code point. *)
Definition token (w : string) : Prop :=
  w <> EmptyString
  /\ Forall (fun c => Py.isspace c = false) (list_ascii_of_string w).

(** ** The start of the program (lines 84-96 and 203-204) *)

(** How the process ends: [exit(status)], or the end of [main]. *)
Inductive Ending :=
| Exited (status : Z)
| Returned (result : Exn + unit).

(** [not v], for [v] the result of [os.getenv]: [None] or a [str]. *)
Definition falsy (v : option string) : bool :=
  match v with
  | Some (String _ _) => false
  | _ => true
  end.

(** The module run as a script. [environ] is the environment after
    [load_dotenv()]; the set-up of the log is left out. *)
Definition script (environ : gmap string string) (br : Browser) (cycles : nat)
    (s : State) : Ending * State :=
  let RH_EMAIL := environ !! "RABBITHOLE_EMAIL" in
  let RH_PASS := environ !! "RABBITHOLE_PASSWORD" in
  if falsy RH_EMAIL || falsy RH_PASS then
    (Exited 1,
     record (Log ERROR
       "Failed to load environment variables. Please check the .env file.") s)
  else
    let (r, s') :=
      main br (default EmptyString RH_EMAIL) (default EmptyString RH_PASS)
        cycles s in
    (Returned r, s').

(** One of the characters that line 197 strips: . , ! ? : ; *)
Definition punct (c : ascii) : bool := Py.mem_char c punctuation.

(** The first tokens that are routed to the handler, read off line 197
    and line 199: lowercased, the token is [telegram] between any number
    of the characters above. *)
Definition telegram_token (w : string) : Prop :=
  exists before after,
    Py.lower w = before +:+ "telegram" +:+ after
    /\ Forall (fun c => punct c = true) (list_ascii_of_string before)
    /\ Forall (fun c => punct c = true) (list_ascii_of_string after).

(** ** Sample runs *)

(** The handler asked to send "hi" to "alice", on a chat site that shows
    everything at once. *)
Definition sample_send : (Exn + unit) * State :=
  telegram_send chat_browser 0 1 "alice" "hi" initial.

Definition sample_telegram : (Exn + unit) * State :=
  Telegram chat_browser "telegram alice hi" initial.

(** The journal login on a site that shows the login form. *)
Definition sample_login : (Exn + unit) * State :=
  main_login chat_browser "user" "secret" 0 1 initial.

(** A round on a journal with one plain entry, and an empty ledger. *)
Definition sample_round : (Exn + unit) * State :=
  poll_cycle (plain_browser "note to self") 0 (with_ledger []).

(** A fresh environment but for a journal session file that holds one
    blank. *)
Definition blank_session : State :=
  {| dirs := ∅; files := {[state_file := " "]}; db := None; trace := [] |}.

(** The program on that journal, from a fresh environment. *)
Definition sample_main : (Exn + unit) * State :=
  main (plain_browser "note to self") "user" "secret" 3 initial.

(** ** The string operations on examples *)

Example split_command :
  Py.split "telegram alice hello there" = ["telegram"; "alice"; "hello"; "there"].
Proof. reflexivity. Qed.

Example split_runs_of_blanks : Py.split "  a   b " = ["a"; "b"].
Proof. reflexivity. Qed.

Example split_only_blanks : Py.split "   " = [].
Proof. reflexivity. Qed.

Example keyword_of_capitals : spec_keyword "Telegram:" = "telegram".
Proof. reflexivity. Qed.

Example re_match_az_examples :
  Py.re_match_az "telegram" = true /\ Py.re_match_az "tele9ram" = false
  /\ Py.re_match_az EmptyString = false.
Proof. repeat split. Qed.

(** ** Runs as steps: a small program logic *)

Section Steps.

Variable Q : Event -> Prop.
Variable D : option Table -> option Table -> Prop.
Hypothesis D_refl : forall d, D d d.
Hypothesis D_trans : forall a b c, D a b -> D b c -> D a c.

Lemma step_refl (s : State) : step Q D s s.
Proof.
  split; [exists []; split; [by rewrite app_nil_r | constructor] | apply D_refl].
Qed.

Lemma step_trans (s1 s2 s3 : State) :
  step Q D s1 s2 -> step Q D s2 s3 -> step Q D s1 s3.
Proof.
  intros [(e1 & H1 & F1) D1] [(e2 & H2 & F2) D2]. split.
  - exists (e1 ++ e2). split.
    + by rewrite H2, H1, app_assoc.
    + by apply Forall_app.
  - eapply D_trans; eassumption.
Qed.

Lemma step_record (e : Event) (s : State) : Q e -> step Q D s (record e s).
Proof.
  intros He. split; [exists [e]; split; [done | by constructor] | apply D_refl].
Qed.

(** A change of the files and directories alone is a step. *)
Lemma step_store (s s' : State) :
  trace s' = trace s -> db s' = db s -> step Q D s s'.
Proof.
  intros Ht Hd. split; [exists []; split; [by rewrite app_nil_r | constructor] |].
  rewrite Hd. apply D_refl.
Qed.

Lemma keeps_ret {A : Type} (a : A) : keeps Q D (ret a).
Proof. intros s r s' [= <- <-]. apply step_refl. Qed.

Lemma keeps_raise {A : Type} (e : Exn) : keeps Q D (@raise A e).
Proof. intros s r s' [= <- <-]. apply step_refl. Qed.

Lemma keeps_bind {A B : Type} (m : M A) (f : A -> M B) :
  keeps Q D m -> (forall a, keeps Q D (f a)) -> keeps Q D (bind m f).
Proof.
  intros Hm Hf s r s'. unfold bind.
  destruct (m s) as [[e | a] s1] eqn:E; intros H.
  - injection H as <- <-. by eapply Hm.
  - eapply step_trans; [by eapply Hm | by eapply Hf].
Qed.

Lemma keeps_try {A : Type} (body : M A) (handler : Exn -> M A) :
  keeps Q D body -> (forall e, keeps Q D (handler e)) ->
  keeps Q D (try_except body handler).
Proof.
  intros Hb Hh s r s'. unfold try_except.
  destruct (body s) as [[e | a] s1] eqn:E; intros H.
  - eapply step_trans; [by eapply Hb | by eapply Hh].
  - injection H as <- <-. by eapply Hb.
Qed.

Lemma keeps_if {A : Type} (b : bool) (m1 m2 : M A) :
  keeps Q D m1 -> keeps Q D m2 -> keeps Q D (if b then m1 else m2).
Proof. by destruct b. Qed.

Lemma keeps_emit (e : Event) : Q e -> keeps Q D (emit e).
Proof. intros He s r s' [= <- <-]. by apply step_record. Qed.

Lemma keeps_now : keeps Q D now.
Proof. intros s r s' [= <- <-]. apply step_refl. Qed.

Lemma keeps_index {A : Type} (xs : list A) (i : nat) : keeps Q D (index xs i).
Proof. unfold index. destruct (xs !! i); [apply keeps_ret | apply keeps_raise]. Qed.

Lemma keeps_makedirs (path : string) : keeps Q D (makedirs path).
Proof. intros s r s' [= <- <-]. by apply step_store. Qed.

Lemma keeps_path_exists (path : string) : keeps Q D (path_exists path).
Proof. intros s r s' [= <- <-]. apply step_refl. Qed.

Lemma keeps_stat_size (path : string) : keeps Q D (stat_size path).
Proof.
  intros s r s'. unfold stat_size.
  destruct (files s !! path); intros [= <- <-]; apply step_refl.
Qed.

Lemma keeps_write_file (path content : string) : keeps Q D (write_file path content).
Proof. intros s r s' [= <- <-]. by apply step_store. Qed.

Lemma keeps_entry_exists (title date time : string) :
  keeps Q D (entry_exists title date time).
Proof.
  intros s r s'. unfold entry_exists.
  destruct (db s); intros [= <- <-]; apply step_refl.
Qed.

Hypothesis Q_telegram : forall e, telegram_event e = true -> Q e.

(** Composite computations are taken apart by their syntax; [known]
    closes the parts that have a lemma of their own, and the side
    conditions on records that the handler does not write. *)
Ltac keeps_step known :=
  lazymatch goal with
  | |- keeps _ _ (ret _) => apply keeps_ret
  | |- keeps _ _ (raise _) => apply keeps_raise
  | |- keeps _ _ now => apply keeps_now
  | |- keeps _ _ (bind _ _) => apply keeps_bind; [| intros ?]
  | |- keeps _ _ (try_except _ _) => apply keeps_try; [| intros ?]
  | |- keeps _ _ (if _ then _ else _) => apply keeps_if
  | |- keeps _ _ (match ?p with (_, _) => _ end) => destruct p
  | |- keeps _ _ (emit _) =>
      apply keeps_emit; first [solve [apply Q_telegram; reflexivity] | known]
  | |- keeps _ _ (index _ _) => apply keeps_index
  | |- keeps _ _ (makedirs _) => apply keeps_makedirs
  | |- keeps _ _ (path_exists _) => apply keeps_path_exists
  | |- keeps _ _ (stat_size _) => apply keeps_stat_size
  | |- keeps _ _ (write_file _ _) => apply keeps_write_file
  | |- keeps _ _ (entry_exists _ _ _) => apply keeps_entry_exists
  | |- keeps _ _ (log _ _) => unfold log
  | |- keeps _ _ launch => unfold launch
  | |- keeps _ _ (new_page _) => unfold new_page
  | |- keeps _ _ (goto _ _) => unfold goto
  | |- keeps _ _ (wait_for_load_state _ _) => unfold wait_for_load_state
  | |- keeps _ _ (is_visible _ _ _) => unfold is_visible
  | |- keeps _ _ (wait_for_selector _ _ _ _) => unfold wait_for_selector
  | |- keeps _ _ (reload _) => unfold reload
  | |- keeps _ _ (fill _ _ _) => unfold fill
  | |- keeps _ _ (press _ _ _) => unfold press
  | |- keeps _ _ (click _ _) => unfold click
  | |- keeps _ _ (wait_for_timeout _ _) => unfold wait_for_timeout
  | |- keeps _ _ (context_close _) => unfold context_close
  | |- keeps _ _ (locator_count _ _ _) => unfold locator_count
  | |- keeps _ _ (nth_svg_count _ _ _ _) => unfold nth_svg_count
  | |- keeps _ _ (nth_click _ _ _) => unfold nth_click
  | |- keeps _ _ (text_content _ _ _) => unfold text_content
  | |- keeps _ _ (storage_state _ _ _) => unfold storage_state
  | |- _ => known
  end.

Ltac keeps_with known := repeat keeps_step known.

Lemma keeps_new_context (br : Browser) (st : option string) :
  keeps Q D (new_context br st).
Proof.
  intros s r s'. unfold new_context.
  destruct st as [path |].
  - destruct (files s !! path) as [content |];
      [destruct (json_loads br content) |]; intros [= <- <-];
      try apply step_refl; try apply step_record; auto.
  - intros [= <- <-]. apply step_record; auto.
Qed.

Lemma keeps_telegram_login (br : Browser) (page : Handle) (n : nat) :
  keeps Q D (telegram_login br page n).
Proof.
  induction n as [| n IH]; simpl; [apply keeps_ret |].
  keeps_with assumption.
Qed.

Lemma keeps_telegram_open (br : Browser) : keeps Q D (telegram_open br).
Proof. unfold telegram_open. keeps_with ltac:(apply keeps_new_context). Qed.

Lemma keeps_telegram_send (br : Browser) (context page : Handle)
    (user_search message : string) :
  keeps Q D (telegram_send br context page user_search message).
Proof.
  unfold telegram_send.
  keeps_with ltac:(apply keeps_telegram_login).
Qed.

Lemma keeps_Telegram (br : Browser) (title : string) :
  keeps Q D (Telegram br title).
Proof.
  unfold Telegram.
  keeps_with ltac:(first [apply keeps_telegram_open | apply keeps_telegram_send]).
Qed.

Lemma keeps_dispatch (br : Browser) (title : string) :
  keeps Q D (dispatch br title).
Proof. unfold dispatch. keeps_with ltac:(apply keeps_Telegram). Qed.

Hypothesis D_init : D None (Some {| rows := []; seq := 0 |}).
Hypothesis D_new : forall t title date time,
  existsb (row_matches title date time) (rows t) = false ->
  D (Some t) (Some (insert_row title date time t)).

Lemma keeps_init_db : keeps Q D init_db.
Proof.
  intros s r s'. unfold init_db.
  destruct (db s) eqn:E; intros [= <- <-]; [apply step_refl |].
  split; [exists []; split; [by rewrite app_nil_r | constructor] |].
  simpl. rewrite E. apply D_init.
Qed.

Lemma keeps_dedup (br : Browser) (title date time : string) :
  keeps Q D (dedup br title date time).
Proof.
  intros s r s'. unfold dedup, bind at 1. unfold entry_exists.
  destruct (db s) as [t |] eqn:E; [| intros [= <- <-]; apply step_refl].
  destruct (existsb _ _) eqn:X.
  - intros [= <- <-]. apply step_record. by apply Q_telegram.
  - unfold bind at 1. unfold save_entry. rewrite E. intros H.
    apply step_trans with (set_db (Some (insert_row title date time t)) s).
    + split; [exists []; split; [by rewrite app_nil_r | constructor] |].
      simpl. rewrite E. by apply D_new.
    + revert H. generalize (set_db (Some (insert_row title date time t)) s).
      intros s1 H.
      refine (keeps_bind _ _ _ (fun _ => keeps_dispatch br title) _ _ _ H).
      apply keeps_emit, Q_telegram. reflexivity.
Qed.

Hypothesis Q_any : forall e, Q e.

Lemma keeps_scan_entries (br : Browser) (page : Handle) (n i : nat) :
  keeps Q D (scan_entries br page i n).
Proof.
  revert i. induction n as [| n IH]; intros i; simpl; [apply keeps_ret |].
  keeps_with ltac:(first [apply IH | apply Q_any]).
Qed.

Lemma keeps_poll_cycle (br : Browser) (page : Handle) :
  keeps Q D (poll_cycle br page).
Proof.
  unfold poll_cycle, process_entry.
  keeps_with ltac:(first [apply keeps_scan_entries | apply keeps_dedup | apply Q_any]).
Qed.

Lemma keeps_poll_loop (br : Browser) (page : Handle) (cycles : nat) :
  keeps Q D (poll_loop br page cycles).
Proof.
  induction cycles as [| k IH]; simpl; [apply keeps_ret |].
  apply keeps_bind; [apply keeps_poll_cycle | intros _; apply IH].
Qed.

Lemma keeps_main_open (br : Browser) : keeps Q D (main_open br).
Proof.
  unfold main_open, main_state_file.
  keeps_with ltac:(first [apply keeps_new_context | apply Q_any]).
Qed.

Lemma keeps_main_login (br : Browser) (RH_EMAIL RH_PASS : string)
    (context page : Handle) :
  keeps Q D (main_login br RH_EMAIL RH_PASS context page).
Proof.
  unfold main_login.
  keeps_with ltac:(apply Q_any).
Qed.

Lemma keeps_main (br : Browser) (RH_EMAIL RH_PASS : string) (cycles : nat) :
  keeps Q D (main br RH_EMAIL RH_PASS cycles).
Proof.
  unfold main.
  keeps_with ltac:(first [apply keeps_init_db | apply keeps_main_open
                         | apply keeps_main_login | apply keeps_poll_loop]).
Qed.

End Steps.

(** Membership in an explicit list of records. *)
Ltac in_list := cbn [In]; repeat first [left; reflexivity | right].

(** The cases of a hypothesis [In e l], for an explicit [l]; the cases
    that equate different records go away. *)
Ltac in_cases H :=
  cbn [In] in H;
  repeat (destruct H as [H | H]; [try discriminate H |]);
  try contradiction.


(** ** Reading traces *)

Lemma events_since_app (s s' : State) (evs : list Event) :
  trace s' = trace s ++ evs -> events_since s s' = evs.
Proof. intros H. unfold events_since. rewrite H. apply drop_app_length. Qed.

Lemma events_since_extend (s : State) (evs : list Event) :
  events_since s (extend evs s) = evs.
Proof. by apply events_since_app. Qed.

(** Unfold a computation down to the state it builds. *)
Ltac run :=
  unfold telegram_send, telegram_open, telegram_login, storage_state,
    wait_for_selector, is_visible, new_page, new_context, text_content,
    locator_count, nth_svg_count, nth_click, context_close, wait_for_timeout,
    click, press, fill, reload, wait_for_load_state, goto, launch, log,
    write_file, makedirs, path_exists, index, try_except, emit, now, raise,
    bind, ret in *;
  cbn [fst snd trace files db dirs record set_files set_dirs set_db] in *.

(** Bring [events_since s s'] to the list of records that were added. *)
Ltac events :=
  unfold events_since, extend in *;
  cbn [trace files db dirs record set_files set_dirs set_db] in *;
  rewrite <- ?app_assoc in *; cbn [app] in *;
  rewrite ?drop_app_length in *.

Lemma record_extend (e : Event) (s : State) : record e s = extend [e] s.
Proof. reflexivity. Qed.

Lemma extend_extend (a b : list Event) (s : State) :
  extend a (extend b s) = extend (b ++ a) s.
Proof. unfold extend. cbn. by rewrite app_assoc. Qed.

Lemma set_files_extend f (evs : list Event) (s : State) :
  set_files f (extend evs s) = extend evs (set_files f s).
Proof. reflexivity. Qed.

Lemma set_dirs_extend f (evs : list Event) (s : State) :
  set_dirs f (extend evs s) = extend evs (set_dirs f s).
Proof. reflexivity. Qed.

Lemma set_db_extend d (evs : list Event) (s : State) :
  set_db d (extend evs s) = extend evs (set_db d s).
Proof. reflexivity. Qed.

(** Bring a state to the form [extend evs s0]. *)
Ltac tidy :=
  rewrite ?record_extend in *;
  rewrite ?set_files_extend, ?set_dirs_extend, ?set_db_extend, ?extend_extend in *;
  cbn [app] in *.

(** Branch on every answer of the browser that the run depends on. *)
Ltac answers br :=
  repeat match goal with
  | |- context [appears br ?t ?sel ?ms] => destruct (appears br t sel ms) eqn:?; cbn
  | |- context [visible br ?t ?sel] => destruct (visible br t sel) eqn:?; cbn
  end.

(** ** The messaging handler *)

Lemma telegram_login_fails (br : Browser) (page : Handle) (s : State) :
  (forall t, appears br t search_bar 30000 = false) ->
  telegram_login br page 3 s =
  (inr false,
   extend [WaitForSelector page search_bar 30000 false; Reload page;
           WaitForSelector page search_bar 30000 false; Reload page;
           WaitForSelector page search_bar 30000 false; Reload page] s).
Proof.
  intros H. run. repeat (rewrite H; cbn). tidy. reflexivity.
Qed.

(** The journal login waits at most twice, never reloads, and ends with
    the timeout when a wait runs out. *)
Lemma main_login_gives_up (br : Browser) (RH_EMAIL RH_PASS : string)
    (context page : Handle) (s s' : State) r :
  main_login br RH_EMAIL RH_PASS context page s = (r, s') ->
  (forall p, ~ In (Reload p) (events_since s s'))
  /\ (forall selector ms,
        In (WaitForSelector page selector ms false) (events_since s s') ->
        r = inl TimeoutError /\
        last (events_since s s') = Some (WaitForSelector page selector ms false)).
Proof.
  unfold main_login. run.
  answers br;
  intros [= <- <-]; events.
  all: split; [intros p H; in_cases H |].
  all: intros selector ms H; in_cases H.
  all: injection H as <- <-; split; reflexivity.
Qed.

(** C4. When the search bar never appears, the login of the messaging
    handler waits three times, reloading after each wait that timed out,
    and reports failure; the handler then logs the failure and closes its
    context, with no fourth wait, no search, no message and no saved
    session. The login of the journal site never reloads: its first wait
    that times out ends it with the timeout. *)
Theorem login_gives_up_after_three (br : Browser) (context page : Handle)
    (user_search message : string) (s : State) :
  (forall t, appears br t search_bar 30000 = false) ->
  telegram_login br page 3 s =
    (inr false,
     extend [WaitForSelector page search_bar 30000 false; Reload page;
             WaitForSelector page search_bar 30000 false; Reload page;
             WaitForSelector page search_bar 30000 false; Reload page] s)
  /\ telegram_send br context page user_search message s =
    (inr tt,
     extend [Log INFO ("User to search: " +:+ user_search);
             Log INFO ("Message to send: " +:+ message);
             WaitForSelector page search_bar 30000 false; Reload page;
             WaitForSelector page search_bar 30000 false; Reload page;
             WaitForSelector page search_bar 30000 false; Reload page;
             Log ERROR "Failed to log in to Telegram after multiple attempts";
             ContextClose context] s)
  /\ (forall RH_EMAIL RH_PASS r s',
        main_login br RH_EMAIL RH_PASS context page s = (r, s') ->
        (forall p, ~ In (Reload p) (events_since s s'))
        /\ (forall selector ms,
              In (WaitForSelector page selector ms false) (events_since s s') ->
              r = inl TimeoutError /\
              last (events_since s s') =
                Some (WaitForSelector page selector ms false))).
Proof.
  intros H. split; [by apply telegram_login_fails |]. split.
  - unfold telegram_send, bind at 1 2. unfold log at 1 2, emit. unfold bind at 1.
    rewrite telegram_login_fails by done.
    run. tidy. reflexivity.
  - intros RH_EMAIL RH_PASS r s'. apply main_login_gives_up.
Qed.
(** C5. In a run of the handler in which the search bar appeared and the
    conversation looked up was not visible, the handler returns normally
    after logging "No users found, aborting.": the only field it filled is
    the search bar, with the conversation asked for; it clicked nothing;
    it wrote the session file, which afterwards holds the session that
    the browser handed out when it was saved (line 49); and the last
    thing it did was to close its browsing context. *)
Theorem target_not_found_aborts (br : Browser) (context page : Handle)
    (user_search message : string) (s s' : State) (r : Exn + unit) :
  telegram_send br context page user_search message s = (r, s') ->
  In (WaitForSelector page search_bar 30000 true) (events_since s s') ->
  In (IsVisible page chat_result false) (events_since s s') ->
  r = inr tt
  /\ In (Log ERROR "No users found, aborting.") (events_since s s')
  /\ (forall selector value, In (Fill page selector value) (events_since s s') ->
        selector = search_bar /\ value = user_search)
  /\ (forall selector, ~ In (Click page selector) (events_since s s'))
  /\ In (StorageState context telegram_session_file) (events_since s s')
  /\ is_Some (files s' !! telegram_session_file)
  /\ last (events_since s s') = Some (ContextClose context)
  /\ (exists t,
        events_since s s' !! t = Some (StorageState context telegram_session_file)
        /\ files s' !! telegram_session_file =
           Some (session_json br (length (trace s) + t)))
  /\ (forall path, path <> telegram_session_file ->
        files s' !! path = files s !! path).
Proof.
  run.
  answers br;
  intros [= <- <-]; events; intros Hlogin Hmiss;
  try solve [exfalso; clear - Hmiss; in_cases Hmiss];
  try solve [exfalso; clear - Hlogin; in_cases Hlogin].
  all: split; [reflexivity |].
  all: split; [in_list |].
  all: split; [intros selector value H; in_cases H; by injection H as <- <- |].
  all: split; [intros selector H; in_cases H |].
  all: split; [in_list |].
  all: split; [rewrite lookup_insert_eq; eauto |].
  all: split; [reflexivity |].
  all: split; [| intros path Hp; by rewrite lookup_insert_ne].
  all: rewrite lookup_insert_eq, length_app; cbn [length].
  all: first [ exists 3%nat; split; [reflexivity |]; do 2 f_equal; lia
             | exists 5%nat; split; [reflexivity |]; do 2 f_equal; lia
             | exists 7%nat; split; [reflexivity |]; do 2 f_equal; lia ].
Qed.

(** C6. The malformed command is the exit on which the handler does not
    release its browsing context: for a title of fewer than three tokens
    no run of [Telegram] closes a context; for "telegram hi" on a fresh
    state the handler opens a context and a page, visits the chat site,
    logs the invalid format and returns with the context open; and [main]
    gets there, on a journal that shows an entry with that title. *)
Theorem malformed_command_leaves_context_open :
  (forall br title s r s',
     (length (Py.split title) < 3)%nat ->
     Telegram br title s = (r, s') ->
     forall context, ~ In (ContextClose context) (events_since s s'))
  /\ (forall br,
     Telegram br "telegram hi" initial =
     (inr tt,
      set_dirs (fun d => {["sessions"]} ∪ d)
        (extend [NewContext None; NewPage 0;
                 Goto 1 "https://web.telegram.org/k/";
                 IsVisible 1 "text=Chats" (visible br 3 "text=Chats");
                 Log INFO (if visible br 3 "text=Chats"
                           then "Already logged in to Telegram."
                           else "Telegram session expired, logging in again.");
                 Log ERROR "Invalid prompt format for Telegram message."]
           initial)))
  /\ (In (NewContext None)
         (trace (main (journal_browser "telegram hi") "user" "secret" 2 initial).2)
      /\ forall context,
           ~ In (ContextClose context)
               (trace (main (journal_browser "telegram hi") "user" "secret" 2
                         initial).2)).
Proof.
  split; [| split].
  - intros br title s r s' Hlen. apply Nat.ltb_lt in Hlen.
    unfold Telegram. rewrite Hlen. run.
    destruct (files s !! telegram_session_file) as [content |] eqn:E;
      cbn; rewrite ?E; cbn; [destruct (json_loads br content); cbn |].
    + destruct (visible br _ _); cbn; intros [= <- <-] context H;
        events; in_cases H.
    + intros [= <- <-] context H. events. by rewrite drop_all in H.
    + destruct (visible br _ _); cbn; intros [= <- <-] context H;
        events; in_cases H.
  - intros br. unfold Telegram.
    change (length (Py.split "telegram hi") <? 3)%nat with true. run.
    change (files initial !! telegram_session_file) with (@None string). cbn.
    destruct (visible br 3 "text=Chats"); cbn; reflexivity.
  - vm_compute. split; [in_list |]. intros context H. in_cases H.
Qed.

(** ** The session files *)

(** C7, as stated, fails for the messaging site: with no session file,
    the handler opens its context and page, and no file is there
    afterwards. *)
Lemma telegram_session_has_no_placeholder :
  ~ session_bootstrap (telegram_open blank_browser) telegram_session_file.
Proof.
  intros H. destruct (H initial) as (a & s' & E & F); [by left |].
  vm_compute in E. injection E as <- <-. vm_compute in F. discriminate F.
Qed.

(** C7, amended. For the journal site, a session file that is missing
    or empty is replaced by the empty JSON object before the browsing
    context is created, and the context is restored from that object
    without an exception. For the messaging site, when there is no session
    file the handler creates its context with no stored state, without an
    exception, and writes no file. *)
Theorem session_bootstrap_by_site :
  (forall br, session_bootstrap (main_open br) state_file)
  /\ (forall br s,
        files s !! state_file = None \/ files s !! state_file = Some EmptyString ->
        exists context page s',
          main_open br s = (inr (context, page), s')
          /\ events_since s s' = [Launch; NewContext (Some "{}"); NewPage context])
  /\ (forall br s,
        files s !! telegram_session_file = None ->
        exists context page s',
          telegram_open br s = (inr (context, page), s')
          /\ files s' = files s
          /\ In (NewContext None) (events_since s s')).
Proof.
  assert (G : forall br s,
    files s !! state_file = None \/ files s !! state_file = Some EmptyString ->
    exists context page s',
      main_open br s = (inr (context, page), s')
      /\ events_since s s' = [Launch; NewContext (Some "{}"); NewPage context]
      /\ files s' !! state_file = Some "{}").
  { intros br s H. unfold main_open, main_state_file, stat_size. run.
    destruct H as [H | H];
      do 3 (rewrite ?H, ?lookup_insert_eq; cbn);
      do 3 eexists; (split; [reflexivity |]); split;
      try (events; reflexivity); cbn; apply lookup_insert_eq. }
  split; [| split].
  - intros br s H. destruct (G br s H) as (c & p & s' & E & _ & F).
    by exists (c, p), s'.
  - intros br s H. destruct (G br s H) as (c & p & s' & E & T & _).
    by exists c, p, s'.
  - intros br s H. run. rewrite H. cbn.
    destruct (visible br _ _); cbn; do 3 eexists;
      (split; [reflexivity |]); (split; [reflexivity |]); events; in_list.
Qed.

(** ** Tokens and the dispatcher *)

Lemma lstrip_id (p : ascii -> bool) (w : string) :
  Forall (fun c => p c = false) (list_ascii_of_string w) -> Py.lstrip p w = w.
Proof.
  destruct w as [| c w]; [done |]. cbn. intros H.
  apply Forall_inv in H. by rewrite H.
Qed.

Lemma reverse_chars (w : string) :
  list_ascii_of_string (Py.reverse w) = rev (list_ascii_of_string w).
Proof. unfold Py.reverse. apply list_ascii_of_string_of_list_ascii. Qed.

Lemma reverse_reverse (w : string) : Py.reverse (Py.reverse w) = w.
Proof.
  unfold Py.reverse at 1. rewrite reverse_chars, rev_involutive.
  apply string_of_list_ascii_of_string.
Qed.

Lemma rstrip_id (p : ascii -> bool) (w : string) :
  Forall (fun c => p c = false) (list_ascii_of_string w) -> Py.rstrip p w = w.
Proof.
  intros H. unfold Py.rstrip. rewrite lstrip_id; [apply reverse_reverse |].
  rewrite reverse_chars. by apply List.Forall_rev.
Qed.

Lemma strip_id (w : string) :
  Forall (fun c => Py.isspace c = false) (list_ascii_of_string w) -> Py.strip w = w.
Proof. intros H. unfold Py.strip. rewrite (lstrip_id _ _ H). by apply rstrip_id. Qed.

Lemma of_rev_chars (word : list ascii) :
  list_ascii_of_string (Py.of_rev word) = rev word.
Proof. apply list_ascii_of_string_of_list_ascii. Qed.

(** No token of [split] holds a whitespace code point. *)
Lemma split_aux_tokens (s : string) : forall word,
  Forall (fun c => Py.isspace c = false) word ->
  Forall (fun w => Forall (fun c => Py.isspace c = false) (list_ascii_of_string w))
         (Py.split_aux word s).
Proof.
  assert (R : forall word, Forall (fun c => Py.isspace c = false) word ->
            Forall (fun c => Py.isspace c = false)
                   (list_ascii_of_string (Py.of_rev word))).
  { intros word H. rewrite of_rev_chars. by apply List.Forall_rev. }
  induction s as [| c s IH]; intros word H; cbn.
  - destruct word; [constructor |]. constructor; [by apply R | constructor].
  - destruct (Py.isspace c) eqn:E.
    + destruct word; [apply IH; constructor |].
      constructor; [by apply R | apply IH; constructor].
    + apply IH. by constructor.
Qed.

Lemma split_token_strip (title w : string) :
  In w (Py.split title) -> Py.strip w = w.
Proof.
  intros H. apply strip_id.
  pose proof (split_aux_tokens title [] (List.Forall_nil _)) as F.
  rewrite List.Forall_forall in F. by apply F.
Qed.

(** C1. A title of at least three tokens whose first token, lowercased
    and with surrounding punctuation stripped, is [telegram] is routed to
    the messaging handler: after the two log lines of the dispatcher the
    handler opens its page and sends with the second token as the
    conversation to look up and the remaining tokens, joined by single
    blanks, as the message. "telegram alice hello there" is routed with
    "alice" and "hello there", "Telegram Bob hi" with "Bob" and "hi". A
    title whose keyword is anything else gets the log line of the
    dispatcher and nothing more. *)
Theorem dispatch_routes_telegram_command :
  (forall br title w0 w1 w2 rest s,
     Py.split title = w0 :: w1 :: w2 :: rest ->
     spec_keyword w0 = "telegram" ->
     dispatch br title s =
     (log INFO "First word of title: telegram";;
      log INFO ("Calling Telegram function with title: " +:+ title);;
      opened <- telegram_open br ;;
      let '(context, page) := opened in
      telegram_send br context page w1 (Py.join " " (w2 :: rest))) s)
  /\ (forall br s,
     dispatch br "telegram alice hello there" s =
     (log INFO "First word of title: telegram";;
      log INFO "Calling Telegram function with title: telegram alice hello there";;
      opened <- telegram_open br ;;
      let '(context, page) := opened in
      telegram_send br context page "alice" "hello there") s)
  /\ (forall br s,
     dispatch br "Telegram Bob hi" s =
     (log INFO "First word of title: telegram";;
      log INFO "Calling Telegram function with title: Telegram Bob hi";;
      opened <- telegram_open br ;;
      let '(context, page) := opened in
      telegram_send br context page "Bob" "hi") s)
  /\ (forall br title w0 rest s,
     Py.split title = w0 :: rest ->
     spec_keyword w0 <> "telegram" ->
     dispatch br title s =
     log INFO ("First word of title: " +:+ spec_keyword w0) s).
Proof.
  assert (G : forall br title w0 w1 w2 rest s,
     Py.split title = w0 :: w1 :: w2 :: rest ->
     spec_keyword w0 = "telegram" ->
     dispatch br title s =
     (log INFO "First word of title: telegram";;
      log INFO ("Calling Telegram function with title: " +:+ title);;
      opened <- telegram_open br ;;
      let '(context, page) := opened in
      telegram_send br context page w1 (Py.join " " (w2 :: rest))) s).
  { intros br title w0 w1 w2 rest s Hs Hk.
    assert (Hw : Py.strip w0 = w0)
      by (apply (split_token_strip title); rewrite Hs; by left).
    unfold dispatch, Telegram. rewrite Hs. cbn [index lookup list_lookup].
    unfold bind at 1. unfold ret at 1. rewrite Hw.
    fold (spec_keyword w0). rewrite Hk.
    change (Py.re_match_az "telegram" && String.eqb "telegram" "telegram")
      with true. cbv iota.
    unfold bind, log, emit.
    change ("First word of title: " +:+ "telegram")
      with "First word of title: telegram".
    destruct (telegram_open br _) as [[e | [context page]] s1]; reflexivity. }
  split; [exact G |].
  split; [intros br s; by apply (G br _ "telegram" "alice" "hello" ["there"]) |].
  split; [intros br s; by apply (G br _ "Telegram" "Bob" "hi" []) |].
  intros br title w0 rest s Hs Hk.
  assert (Hw : Py.strip w0 = w0)
    by (apply (split_token_strip title); rewrite Hs; by left).
  unfold dispatch. rewrite Hs. cbn [index lookup list_lookup].
  unfold bind at 1. unfold ret at 1. rewrite Hw. fold (spec_keyword w0).
  apply String.eqb_neq in Hk. rewrite Hk, andb_false_r.
  unfold bind, ret, log, emit. reflexivity.
Qed.

(** ** A round of the loop *)

Lemma scan_entries_scanned (br : Browser) (page : Handle) (n : nat) :
  forall i s, exists evs b,
    scan_entries br page i n s = (inr b, extend evs s) /\ scanned page i n evs b.
Proof.
  induction n as [| n IH]; intros i s.
  - exists [], false. split; [| constructor].
    cbn. unfold ret, extend. by rewrite app_nil_r; destruct s.
  - cbn [scan_entries]. run.
    destruct (svg_count_of br (length (trace s)) entry_list i) as [| c] eqn:E; cbn.
    + exists [SvgCount page entry_list i 0; ClickNth page entry_list i], true.
      split; [by tidy | constructor].
    + destruct (IH (S i) (record (SvgCount page entry_list i (S c)) s))
        as (evs & b & R & Sc).
      exists (SvgCount page entry_list i (S c) :: evs), b.
      split; [rewrite R; by tidy | by constructor].
Qed.

(** A scan writes counts and clicks of entries from [i] on, nothing else. *)
Lemma scanned_shape (page : Handle) i n evs b :
  scanned page i n evs b ->
  Forall (fun e => exists j, (i <= j)%nat /\
            ((exists c, e = SvgCount page entry_list j c)
             \/ e = ClickNth page entry_list j)) evs.
Proof.
  induction 1 as [i | i n | i n c evs b Hc _ IH].
  - constructor.
  - repeat constructor; exists i; eauto.
  - constructor; [exists i; eauto |].
    eapply Forall_impl; [exact IH |]. cbn.
    intros e (j & Hj & He). exists j. split; [lia | exact He].
Qed.

Lemma scanned_index (page : Handle) i n evs b e :
  scanned page i n evs b -> In e evs ->
  exists j, (i <= j)%nat /\
    ((exists c, e = SvgCount page entry_list j c) \/ e = ClickNth page entry_list j).
Proof.
  intros H Hin. apply scanned_shape in H. rewrite List.Forall_forall in H. auto.
Qed.




Lemma entry_exists_extend (title date time : string) (evs : list Event)
    (s : State) (b : bool) :
  entry_exists title date time s = (inr b, s) ->
  entry_exists title date time (extend evs s) = (inr b, extend evs s).
Proof.
  unfold entry_exists. cbn. destruct (db s); [| discriminate].
  by intros [= ->].
Qed.

(** What the dispatcher and the handler write, and that they leave the
    ledger alone. *)
Lemma dispatch_step (br : Browser) (title : string) (s s' : State) r :
  dispatch br title s = (r, s') ->
  step (fun e => telegram_event e = true) eq s s'.
Proof.
  apply keeps_dispatch; try done. intros a b c -> ->. reflexivity.
Qed.

(** The three ways a round can go: the list does not show up; no plain
    entry is listed; a plain entry is opened, read and handed on. *)
Lemma poll_cycle_run (br : Browser) (page : Handle) (s s' : State) r :
  poll_cycle br page s = (r, s') ->
  (r = inr tt /\
   s' = extend (cycle_header page ++
                [WaitForSelector page entry_list 15000 false;
                 LogExn ERROR "Error waiting for journal entries: " TimeoutError]) s)
  \/ (exists n evs,
        scanned page 0 n evs false /\ r = inr tt /\
        s' = extend (cycle_header page ++
                     WaitForSelector page entry_list 15000 true ::
                     Count page entry_list n :: evs ++
                     [Log INFO "No valid entries without SVG found, reloading..."]) s)
  \/ (exists n evs title date time,
        scanned page 0 n evs true /\
        dedup br title date time
          (extend (cycle_header page ++
                   WaitForSelector page entry_list 15000 true ::
                   Count page entry_list n :: evs ++
                   [TextContent page title_text title;
                    TextContent page date_text date;
                    TextContent page time_text time]) s) = (r, s')).
Proof.
  unfold poll_cycle. run.
  destruct (appears br _ entry_list 15000) eqn:A; cbn.
  - match goal with
    | |- context [scan_entries br page 0 ?n ?s0] =>
        destruct (scan_entries_scanned br page n 0 s0) as (evs & b & R & Sc);
        rewrite R
    end.
    destruct b; cbn.
    + intros H. right. right. unfold process_entry in H. run.
      do 5 eexists. split; [exact Sc |]. rewrite <- H. f_equal.
      tidy. unfold cycle_header. cbn [app]. by rewrite <- app_assoc.
    + intros [= <- <-]. right. left. do 2 eexists. split; [exact Sc |].
      split; [done |]. tidy. unfold cycle_header. cbn [app]. by rewrite <- app_assoc.
  - intros [= <- <-]. left. split; [done |]. by tidy.
Qed.

Lemma dedup_run (br : Browser) (title date time : string) (s s' : State) r :
  dedup br title date time s = (r, s') ->
  (db s = None /\ r = inl OperationalError /\ s' = s)
  \/ (entry_exists title date time s = (inr true, s) /\ r = inr tt /\
      s' = extend [Log INFO "DB entry already exists, reloading to check for new entries..."] s)
  \/ (exists t,
        db s = Some t /\ entry_exists title date time s = (inr false, s) /\
        dispatch br title
          (extend [Log INFO (saved_message title date time)]
             (set_db (Some (insert_row title date time t)) s)) = (r, s')).
Proof.
  unfold dedup, bind at 1. unfold entry_exists.
  destruct (db s) as [t |] eqn:E; [| intros [= <- <-]; by left].
  destruct (existsb _ _) eqn:X.
  - intros [= <- <-]. right. left. by rewrite record_extend.
  - unfold bind at 1. unfold save_entry. rewrite E.
    unfold bind at 1. unfold log, emit. intros H. right. right.
    exists t. by rewrite <- H.
Qed.

(** How a round ends. *)
Lemma poll_cycle_outcome (br : Browser) (page : Handle) (s s' : State) r :
  poll_cycle br page s = (r, s') ->
  (r = inr tt /\
   s' = extend (cycle_header page ++
                [WaitForSelector page entry_list 15000 false;
                 LogExn ERROR "Error waiting for journal entries: " TimeoutError]) s)
  \/ (exists n evs,
        scanned page 0 n evs false /\ r = inr tt /\
        s' = extend (cycle_header page ++
                     WaitForSelector page entry_list 15000 true ::
                     Count page entry_list n :: evs ++
                     [Log INFO "No valid entries without SVG found, reloading..."]) s)
  \/ (exists n evs title date time post,
        scanned page 0 n evs true /\
        events_since s s' = cycle_reads page n evs title date time ++ post /\
        Forall (fun e => telegram_event e = true) post /\
        ((db s = None /\ r = inl OperationalError /\ post = [] /\ db s' = db s)
         \/ (entry_exists title date time s = (inr true, s) /\ r = inr tt /\
             post = [Log INFO "DB entry already exists, reloading to check for new entries..."] /\
             db s' = db s)
         \/ (exists t post' s1,
               db s = Some t /\
               entry_exists title date time s = (inr false, s) /\
               db s' = Some (insert_row title date time t) /\
               post = Log INFO (saved_message title date time) :: post' /\
               db s1 = Some (insert_row title date time t) /\
               events_since s s1 =
                 cycle_reads page n evs title date time ++
                 [Log INFO (saved_message title date time)] /\
               dispatch br title s1 = (r, s')))).
Proof.
  intros H. apply poll_cycle_run in H.
  destruct H as [H | [H | (n & evs & title & date & time & Sc & H)]];
    [by left | by right; left |].
  right. right. exists n, evs, title, date, time.
  fold (cycle_reads page n evs title date time) in H.
  apply dedup_run in H.
  destruct H as [(E & -> & ->) | [(E & -> & ->) | (t & E & X & H)]].
  - exists []. split; [exact Sc |].
    split; [by rewrite events_since_extend, app_nil_r |].
    split; [constructor |]. by left.
  - eexists. split; [exact Sc |].
    split; [by rewrite extend_extend, events_since_extend |].
    split; [repeat constructor |]. right. left.
    split; [| done]. unfold entry_exists in *. cbn in E.
    destruct (db s); [| discriminate]. by injection E as ->.
  - rewrite set_db_extend, extend_extend in H.
    destruct (dispatch_step _ _ _ _ _ H) as [(post & T & F) D].
    unfold extend in T, D. cbn [trace db set_db] in T, D.
    exists (Log INFO (saved_message title date time) :: post).
    split; [exact Sc |].
    split; [apply events_since_app; rewrite T, <- !app_assoc; reflexivity |].
    split; [by constructor |]. right. right.
    exists t, post,
      (extend (cycle_reads page n evs title date time ++
               [Log INFO (saved_message title date time)])
         (set_db (Some (insert_row title date time t)) s)).
    split; [exact E |]. split.
    { unfold entry_exists in *. cbn in X. cbn in E. rewrite E in *.
      by injection X as ->. }
    split; [by rewrite <- D |]. split; [done |]. split; [reflexivity |].
    split; [| exact H]. by apply events_since_app.
Qed.

Lemma scanned_no_other (page : Handle) i n evs b e :
  scanned page i n evs b -> In e evs ->
  match e with SvgCount _ _ _ _ | ClickNth _ _ _ => True | _ => False end.
Proof.
  intros H Hin. destruct (scanned_index _ _ _ _ _ _ H Hin) as (j & _ & [[c ->] | ->]); exact I.
Qed.

(** The only texts a round reads are the title, the date and the time of
    the entry it opened. *)
Lemma cycle_text (page : Handle) n evs b title date time post selector value :
  scanned page 0 n evs b ->
  Forall (fun e => telegram_event e = true) post ->
  In (TextContent page selector value)
     (cycle_reads page n evs title date time ++ post) ->
  (selector = title_text /\ value = title)
  \/ (selector = date_text /\ value = date)
  \/ (selector = time_text /\ value = time).
Proof.
  intros Sc F H. apply in_app_or in H. destruct H as [H | H].
  - unfold cycle_reads, cycle_header in H. cbn [app] in H.
    do 5 (destruct H as [H | H]; [discriminate H |]).
    apply in_app_or in H. destruct H as [H | H].
    + by destruct (scanned_no_other _ _ _ _ _ _ Sc H).
    + in_cases H; injection H as <- <-; auto.
  - rewrite List.Forall_forall in F. apply F in H. discriminate H.
Qed.

Lemma cycle_title (page : Handle) n evs b title date time post value :
  scanned page 0 n evs b ->
  Forall (fun e => telegram_event e = true) post ->
  In (TextContent page title_text value)
     (cycle_reads page n evs title date time ++ post) ->
  value = title.
Proof.
  intros Sc F H.
  destruct (cycle_text _ _ _ _ _ _ _ _ _ _ Sc F H) as [[_ E] | [[E _] | [E _]]];
    [done | discriminate E | discriminate E].
Qed.

Lemma cycle_date (page : Handle) n evs b title date time post value :
  scanned page 0 n evs b ->
  Forall (fun e => telegram_event e = true) post ->
  In (TextContent page date_text value)
     (cycle_reads page n evs title date time ++ post) ->
  value = date.
Proof.
  intros Sc F H.
  destruct (cycle_text _ _ _ _ _ _ _ _ _ _ Sc F H) as [[E _] | [[_ E] | [E _]]];
    [discriminate E | done | discriminate E].
Qed.

Lemma cycle_time (page : Handle) n evs b title date time post value :
  scanned page 0 n evs b ->
  Forall (fun e => telegram_event e = true) post ->
  In (TextContent page time_text value)
     (cycle_reads page n evs title date time ++ post) ->
  value = time.
Proof.
  intros Sc F H.
  destruct (cycle_text _ _ _ _ _ _ _ _ _ _ Sc F H) as [[E _] | [[E _] | [_ E]]];
    [discriminate E | discriminate E | done].
Qed.

(** A round that reads no entry writes no text record. *)
Lemma no_text_without_entry (page : Handle) n evs b tail selector value :
  scanned page 0 n evs b ->
  Forall (fun e => telegram_event e = true) tail ->
  ~ In (TextContent page selector value)
      (cycle_header page ++
       WaitForSelector page entry_list 15000 true ::
       Count page entry_list n :: evs ++ tail).
Proof.
  intros Sc F H. unfold cycle_header in H. cbn [app] in H.
  do 5 (destruct H as [H | H]; [discriminate H |]).
  apply in_app_or in H. destruct H as [H | H].
  - by destruct (scanned_no_other _ _ _ _ _ _ Sc H).
  - rewrite List.Forall_forall in F. apply F in H. discriminate H.
Qed.

(** What a round writes before it hands an entry on holds no record of
    the dispatcher or of the handler. *)
Lemma cycle_reads_quiet (page : Handle) n evs b title date time e :
  scanned page 0 n evs b ->
  In e (cycle_reads page n evs title date time) ->
  (forall m, e <> Log INFO ("First word of title: " +:+ m))
  /\ (forall st, e <> NewContext st).
Proof.
  intros Sc H. unfold cycle_reads, cycle_header in H. cbn [app] in H.
  do 5 (destruct H as [<- | H]; [split; intros; discriminate |]).
  apply in_app_or in H. destruct H as [H | H].
  - pose proof (scanned_no_other _ _ _ _ _ _ Sc H) as K.
    destruct e; try destruct K; split; intros; discriminate.
  - do 3 (destruct H as [<- | H]; [split; intros; discriminate |]). destruct H.
Qed.

(** C2. When the ledger already holds the key (title, date, time), a
    round of the loop that reads an entry with that title, date and time
    ends normally, leaves the ledger as it was, writes the "already
    exists" line last, and writes neither the first line of the dispatcher
    nor a record of a new browsing context. *)
Theorem known_entry_is_skipped (br : Browser) (page : Handle) (s s' : State) r
    (title date time : string) :
  entry_exists title date time s = (inr true, s) ->
  poll_cycle br page s = (r, s') ->
  In (TextContent page title_text title) (events_since s s') ->
  In (TextContent page date_text date) (events_since s s') ->
  In (TextContent page time_text time) (events_since s s') ->
  r = inr tt
  /\ db s' = db s
  /\ last (events_since s s') =
       Some (Log INFO "DB entry already exists, reloading to check for new entries...")
  /\ (forall m, ~ In (Log INFO ("First word of title: " +:+ m)) (events_since s s'))
  /\ (forall st, ~ In (NewContext st) (events_since s s')).
Proof.
  intros Hk H. apply poll_cycle_outcome in H.
  destruct H as [(-> & ->) | [(n & evs & Sc & -> & ->)
    | (n & evs & t0 & d0 & ti0 & post & Sc & T & F & H)]].
  - rewrite events_since_extend. intros H. unfold cycle_header in H. in_cases H.
  - rewrite events_since_extend. intros H. exfalso.
    by eapply (no_text_without_entry page n evs false
                 [Log INFO "No valid entries without SVG found, reloading..."]);
      [| repeat constructor | exact H].
  - rewrite T. intros H1 H2 H3.
    rewrite (cycle_title _ _ _ _ _ _ _ _ _ Sc F H1) in Hk.
    rewrite (cycle_date _ _ _ _ _ _ _ _ _ Sc F H2) in Hk.
    rewrite (cycle_time _ _ _ _ _ _ _ _ _ Sc F H3) in Hk.
    destruct H as [(E & _) | [(_ & -> & -> & D) | (t & post' & s1 & _ & X & _)]].
    + unfold entry_exists in Hk. rewrite E in Hk. discriminate Hk.
    + split; [done |]. split; [done |]. split; [by rewrite last_snoc |].
      split.
      * intros m H. apply in_app_or in H. destruct H as [H | H].
        -- by destruct (cycle_reads_quiet _ _ _ _ _ _ _ _ Sc H) as [K _]; eapply K.
        -- in_cases H.
      * intros st H. apply in_app_or in H. destruct H as [H | H].
        -- by destruct (cycle_reads_quiet _ _ _ _ _ _ _ _ Sc H) as [_ K]; eapply K.
        -- in_cases H.
    + rewrite Hk in X. discriminate X.
Qed.







Lemma split_blank (title : string) :
  Forall (fun c => Py.isspace c = true) (list_ascii_of_string title) ->
  Py.split title = [].
Proof.
  unfold Py.split. induction title as [| c title IH]; cbn; [done |].
  intros H. apply Forall_cons in H as [Hc H]. rewrite Hc. by apply IH.
Qed.

Lemma poll_loop_stops (br : Browser) (page : Handle) (s s' : State) (e : Exn) :
  poll_cycle br page s = (inl e, s') ->
  forall n, poll_loop br page (S n) s = (inl e, s').
Proof. intros H n. cbn. unfold bind. by rewrite H. Qed.

(** C10. A title that is empty or all whitespace has no token: the
    dispatcher raises [IndexError] before it logs anything. A round of the
    loop that reads such a title for a key the ledger does not hold saves
    the entry, logs that, and ends with the exception, which ends the
    loop. *)
Theorem blank_title_stops_the_loop (br : Browser) (title : string) :
  Forall (fun c => Py.isspace c = true) (list_ascii_of_string title) ->
  (forall s, dispatch br title s = (inl IndexError, s))
  /\ (forall page s s' r date time,
        poll_cycle br page s = (r, s') ->
        In (TextContent page title_text title) (events_since s s') ->
        In (TextContent page date_text date) (events_since s s') ->
        In (TextContent page time_text time) (events_since s s') ->
        entry_exists title date time s = (inr false, s) ->
        r = inl IndexError
        /\ entry_exists title date time s' = (inr true, s')
        /\ last (events_since s s') = Some (Log INFO (saved_message title date time))
        /\ forall n, poll_loop br page (S n) s = (inl IndexError, s')).
Proof.
  intros Hb. apply split_blank in Hb.
  assert (G : forall s, dispatch br title s = (inl IndexError, s)).
  { intros s. unfold dispatch. rewrite Hb. reflexivity. }
  split; [exact G |].
  intros page s s' r date time H H1 H2 H3 Hn.
  pose proof H as Hc. apply poll_cycle_outcome in H.
  destruct H as [(-> & ->) | [(n & evs & Sc & -> & ->)
    | (n & evs & t0 & d0 & ti0 & post & Sc & T & F & H)]].
  - rewrite events_since_extend in H1. unfold cycle_header in H1. in_cases H1.
  - rewrite events_since_extend in H1. exfalso.
    by eapply (no_text_without_entry page n evs false
                 [Log INFO "No valid entries without SVG found, reloading..."]);
      [| repeat constructor | exact H1].
  - rewrite T in H1, H2, H3.
    pose proof (cycle_title _ _ _ _ _ _ _ _ _ Sc F H1) as ->.
    pose proof (cycle_date _ _ _ _ _ _ _ _ _ Sc F H2) as ->.
    pose proof (cycle_time _ _ _ _ _ _ _ _ _ Sc F H3) as ->.
    destruct H as [(E & _) | [(X & _) | (t & post' & s1 & E & _ & D & -> & D1 & K & H)]].
    + unfold entry_exists in Hn. rewrite E in Hn. discriminate Hn.
    + rewrite X in Hn. discriminate Hn.
    + rewrite G in H. injection H as <- <-.
      split; [done |]. split.
      { unfold entry_exists. rewrite D1. unfold insert_row. cbn [rows].
        rewrite existsb_app. cbn. unfold row_matches. cbn.
        by rewrite !String.eqb_refl, orb_true_r. }
      assert (P : post' = []).
      { rewrite T in K. apply app_inv_head in K. by injection K. }
      subst post'. split; [rewrite T; apply last_snoc |].
      intros k. by apply poll_loop_stops.
Qed.

(** ** The ledger *)

Lemma grows_refl (d : option Table) : grows d d.
Proof. intros t ->. by exists t. Qed.

Lemma grows_trans (a b c : option Table) : grows a b -> grows b c -> grows a c.
Proof.
  intros H1 H2 t E. destruct (H1 t E) as (t1 & E1 & P1).
  destruct (H2 t1 E1) as (t2 & E2 & P2). exists t2. split; [done |].
  by transitivity (rows t1).
Qed.

Lemma grows_insert (t : Table) (title date time : string) :
  grows (Some t) (Some (insert_row title date time t)).
Proof.
  intros t0 [= <-]. eexists. split; [done |]. cbn. by apply prefix_app_r.
Qed.

Lemma keeps_save_entry (title date time : string) :
  keeps (fun _ => True) grows (save_entry title date time).
Proof.
  intros s r s'. unfold save_entry. destruct (db s) as [t |] eqn:E.
  - intros [= <- <-]. split; [exists []; split; [by rewrite app_nil_r | constructor] |].
    cbn. rewrite E. apply grows_insert.
  - intros [= <- <-]. apply step_refl, grows_refl.
Qed.

(** No operation of the program takes a row away or changes one. *)
Lemma run_op_grows (op : Operation) (s : State) : grows (db s) (db (run_op op s)).
Proof.
  assert (K : forall A (m : M A),
            keeps (fun _ => True) grows m -> grows (db s) (db (m s).2)).
  { intros A m H. destruct (m s) as [r s'] eqn:E. by destruct (H _ _ _ E). }
  destruct op; cbn [run_op]; apply K.
  - apply keeps_init_db; [apply grows_refl | intros t [=]].
  - apply keeps_entry_exists, grows_refl.
  - apply keeps_save_entry.
  - by apply keeps_Telegram; [apply grows_refl | apply grows_trans |].
  - apply keeps_poll_cycle;
      [apply grows_refl | apply grows_trans | done
      | intros; apply grows_insert | done].
  - apply keeps_main;
      [apply grows_refl | apply grows_trans | done | intros t [=]
      | intros; apply grows_insert | done].
Qed.

Lemma run_ops_grows (ops : list Operation) (s : State) :
  grows (db s) (db (run_ops ops s)).
Proof.
  revert s. induction ops as [| op ops IH]; intros s; cbn; [apply grows_refl |].
  eapply grows_trans; [apply run_op_grows | apply IH].
Qed.

(** C8. Once [save_entry] has stored a key, [entry_exists] answers true
    for it after any sequence of operations of the program, and the rows
    the table had are still there, unchanged and in place. *)
Theorem saved_entry_stays (title date time : string) (s s1 : State) :
  save_entry title date time s = (inr tt, s1) ->
  forall ops,
    entry_exists title date time (run_ops ops s1) = (inr true, run_ops ops s1)
    /\ exists t1 t2,
         db s1 = Some t1 /\ db (run_ops ops s1) = Some t2
         /\ rows t1 `prefix_of` rows t2.
Proof.
  unfold save_entry. destruct (db s) as [t |] eqn:E; [| discriminate].
  intros [= <-] ops.
  destruct (run_ops_grows ops (set_db (Some (insert_row title date time t)) s)
              (insert_row title date time t) eq_refl) as (t2 & E2 & [more P]).
  split; [| by exists (insert_row title date time t), t2; rewrite P; eauto using prefix_app_r].
  unfold entry_exists. rewrite E2, P. cbn [insert_row rows].
  rewrite !existsb_app. cbn. unfold row_matches. cbn.
  by rewrite !String.eqb_refl, !orb_true_r.
Qed.

Lemma row_matches_key (title date time : string) (r : Row) :
  row_matches title date time r = true <-> row_key r = (title, date, time).
Proof.
  unfold row_matches, row_key. rewrite !andb_true_iff, !String.eqb_eq.
  split; [intros [[-> ->] ->]; done | intros [= -> -> ->]; done].
Qed.

Lemma exists_key (title date time : string) (rs : list Row) :
  existsb (row_matches title date time) rs = true <->
  In (title, date, time) (map row_key rs).
Proof.
  rewrite existsb_exists, in_map_iff. split.
  - intros (r & Hin & Hm). exists r. by rewrite <- row_matches_key.
  - intros (r & Hk & Hin). exists r. by rewrite row_matches_key.
Qed.

Lemma unique_insert (t : Table) (title date time : string) :
  existsb (row_matches title date time) (rows t) = false ->
  unique_keys (Some t) -> unique_keys (Some (insert_row title date time t)).
Proof.
  intros X U t' [= <-]. cbn [insert_row rows]. rewrite map_app. cbn.
  apply NoDup_app. split; [by apply U |].
  split; [| apply NoDup_singleton].
  intros k Hk ->%list_elem_of_singleton. apply list_elem_of_In in Hk.
  apply (proj2 (exists_key title date time (rows t))) in Hk. by rewrite X in Hk.
Qed.

Lemma unique_empty : unique_keys (Some {| rows := []; seq := 0 |}).
Proof. intros t [= <-]. constructor. Qed.

(** C9. [save_entry] does not look at the key: called twice with one key
    it appends two rows that differ only in their ids, and the table then
    holds the key twice. A table with at most one row per key stays so
    under any number of rounds of the loop, and under [main], where every
    [save_entry] comes after an [entry_exists] that answered false. *)
Theorem insert_does_not_check_the_key :
  (forall title date time s s1 s2,
     save_entry title date time s = (inr tt, s1) ->
     save_entry title date time s1 = (inr tt, s2) ->
     exists t,
       db s = Some t
       /\ db s2 =
            Some {| rows := rows t ++
                      [{| row_id := seq t + 1; row_title := title;
                          row_date := date; row_time := time |};
                       {| row_id := seq t + 1 + 1; row_title := title;
                          row_date := date; row_time := time |}];
                    seq := seq t + 1 + 1 |}
       /\ (seq t + 1 <> seq t + 1 + 1)%N
       /\ ~ unique_keys (db s2))
  /\ (forall br page cycles s r s',
        unique_keys (db s) ->
        poll_loop br page cycles s = (r, s') -> unique_keys (db s'))
  /\ (forall br RH_EMAIL RH_PASS cycles s r s',
        unique_keys (db s) ->
        main br RH_EMAIL RH_PASS cycles s = (r, s') -> unique_keys (db s')).
Proof.
  split; [| split].
  - intros title date time s s1 s2. unfold save_entry.
    destruct (db s) as [t |] eqn:E; [| discriminate]. intros [= <-]. cbn.
    intros [= <-]. exists t. split; [done |]. cbn. unfold insert_row. cbn.
    rewrite <- app_assoc. split; [done |]. split; [lia |].
    intros U. specialize (U _ eq_refl). cbn in U. rewrite map_app in U.
    apply NoDup_app in U as (_ & _ & U). cbn in U.
    apply NoDup_cons in U as [U _]. apply U. by left.
  - intros br page cycles s r s' U H.
    by destruct (keeps_poll_loop (fun _ => True)
                   (fun d d' => unique_keys d -> unique_keys d')
                   (fun d K => K) (fun a b c K1 K2 K => K2 (K1 K))
                   (fun _ _ => I) unique_insert
                   (fun _ => I) br page cycles s r s' H) as [_ K]; apply K.
  - intros br e p cycles s r s' U H.
    by destruct (keeps_main (fun _ => True)
                   (fun d d' => unique_keys d -> unique_keys d')
                   (fun d K => K) (fun a b c K1 K2 K => K2 (K1 K))
                   (fun _ _ => I) (fun _ => unique_empty) unique_insert
                   (fun _ => I) br e p cycles s r s' H) as [_ K]; apply K.
Qed.

(** ** The login loop and the handler, for every browser *)

Lemma extend_nil (s : State) : extend [] s = s.
Proof. unfold extend. rewrite app_nil_r. by destruct s. Qed.

(** The login loop stops at the first wait that succeeds; the wait of
    round [t] is asked at time [length (trace s) + 2 * t]. *)
Lemma telegram_login_rounds (br : Browser) (page : Handle) (n : nat) :
  forall s, exists (k : nat) (b : bool),
    (k <= n)%nat
    /\ (forall t, (t < k)%nat ->
          appears br (length (trace s) + 2 * t) search_bar 30000 = false)
    /\ (if b then appears br (length (trace s) + 2 * k) search_bar 30000 = true
        else k = n)
    /\ telegram_login br page n s =
       (inr b,
        extend (failed_rounds page k ++
                if b then [WaitForSelector page search_bar 30000 true] else []) s).
Proof.
  induction n as [| n IH]; intros s.
  - exists 0%nat, false. split; [lia |]. split; [intros t Ht; lia |].
    split; [done |]. cbn. by rewrite extend_nil.
  - cbn [telegram_login]. run.
    destruct (appears br (length (trace s)) search_bar 30000) eqn:A; cbn.
    + exists 0%nat, true. split; [lia |]. split; [intros t Ht; lia |].
      split; [rewrite <- A; f_equal; lia |]. by tidy.
    + destruct (IH (record (Reload page)
                      (record (WaitForSelector page search_bar 30000 false) s)))
        as (k & b & Hk & Hf & Hb & R).
      assert (L : length (trace (record (Reload page)
                   (record (WaitForSelector page search_bar 30000 false) s)))
                  = (length (trace s) + 2)%nat)
        by (cbn; rewrite !length_app; cbn; lia).
      rewrite L in Hf, Hb.
      exists (S k), b. split; [lia |]. split; [| split].
      * intros [| t] Ht; [rewrite <- A; f_equal; lia |].
        rewrite <- (Hf t) by lia. f_equal. lia.
      * destruct b; [| lia]. rewrite <- Hb. f_equal. lia.
      * unfold telegram_login in R. run. rewrite R. tidy. reflexivity.
Qed.

(** X1. The login loop of the handler (lines 39-46), for any browser and
    any number [n] of rounds: it never raises. Some [k <= n] rounds time
    out, each recorded as one wait followed by one reload; the loop stops
    at the first wait that succeeds and does nothing after it. It reports
    success exactly when a wait succeeded, and failure only after all [n]
    waits timed out. It records [2 * k] events, and one more for the wait
    that succeeded. *)
Theorem login_stops_at_first_success (br : Browser) (page : Handle) (n : nat)
    (s : State) :
  exists (k : nat) (b : bool),
    (k <= n)%nat
    /\ (forall t, (t < k)%nat ->
          appears br (length (trace s) + 2 * t) search_bar 30000 = false)
    /\ (b = true -> appears br (length (trace s) + 2 * k) search_bar 30000 = true)
    /\ (b = false -> k = n)
    /\ telegram_login br page n s =
       (inr b,
        extend (failed_rounds page k ++
                if b then [WaitForSelector page search_bar 30000 true] else []) s)
    /\ length (failed_rounds page k ++
               if b then [WaitForSelector page search_bar 30000 true] else [])
       = (2 * k + if b then 1 else 0)%nat.
Proof.
  destruct (telegram_login_rounds br page n s) as (k & b & Hk & Hf & Hb & R).
  exists k, b. split; [exact Hk |]. split; [exact Hf |].
  split; [intros ->; exact Hb |]. split; [intros ->; exact Hb |].
  split; [exact R |].
  rewrite length_app. clear. induction k as [| k IH]; destruct b; cbn in *; lia.
Qed.

(** X2. Once a command has its three words, the handler returns without
    an exception on every path (login failed, conversation not found,
    message sent), and the last thing it does is close its context: one
    close is recorded, at the very end. The send button is clicked only
    after a wait for the search bar succeeded and the conversation was
    visible. The ledger and the directories are untouched, and no file
    other than the session file of the chat site is written. *)
Theorem handler_always_closes_its_context (br : Browser) (context page : Handle)
    (user_search message : string) (s s' : State) r :
  telegram_send br context page user_search message s = (r, s') ->
  r = inr tt
  /\ last (events_since s s') = Some (ContextClose context)
  /\ (forall c, ~ In (ContextClose c) (removelast (events_since s s')))
  /\ (In (Click page send_button) (events_since s s') ->
      In (WaitForSelector page search_bar 30000 true) (events_since s s')
      /\ In (IsVisible page chat_result true) (events_since s s'))
  /\ db s' = db s
  /\ dirs s' = dirs s
  /\ (forall path, path <> telegram_session_file ->
        files s' !! path = files s !! path).
Proof.
  run. answers br; intros [= <- <-]; events.
  all: split; [reflexivity |].
  all: split; [reflexivity |].
  all: split; [intros c H; in_cases H |].
  all: split; [intros H; first [by in_cases H | split; in_list] |].
  all: split; [reflexivity |].
  all: split; [reflexivity |].
  all: intros path Hp; cbn; by rewrite ?lookup_insert_ne.
Qed.


(** How the handler opens: it stops at a session file that is not JSON,
    or it creates the context and the page that the rest of the call
    uses. *)
Lemma telegram_open_run (br : Browser) (s s1 : State)
    (r : Exn + Handle * Handle) :
  telegram_open br s = (r, s1) ->
  db s1 = db s /\ files s1 = files s
  /\ ((r = inl JSONDecodeError /\ trace s1 = trace s
       /\ exists content,
            files s !! telegram_session_file = Some content
            /\ json_loads br content = false)
      \/ (exists b message,
            r = inr (length (trace s), S (length (trace s)))
            /\ (forall content,
                  files s !! telegram_session_file = Some content ->
                  json_loads br content = true)
            /\ trace s1 = trace s ++
                 [NewContext (files s !! telegram_session_file);
                  NewPage (length (trace s));
                  Goto (S (length (trace s))) "https://web.telegram.org/k/";
                  IsVisible (S (length (trace s))) "text=Chats" b;
                  Log INFO message])).
Proof.
  run.
  assert (L : forall e : Event, length (trace s ++ [e]) = S (length (trace s)))
    by (intros e; rewrite length_app; cbn; lia).
  destruct (files s !! telegram_session_file) as [content |] eqn:E;
    cbn; rewrite ?E; cbn;
    [destruct (json_loads br content) eqn:J; cbn |];
    answers br; intros [= <- <-]; cbn;
    (split; [reflexivity |]); (split; [reflexivity |]);
    first [ left; split; [done |]; split; [done |]; by eexists
          | right; do 2 eexists; rewrite ?L, <- ?app_assoc; cbn [app];
            split; [reflexivity |];
            split; [by intros c' [= <-] || by intros c' [=] | reflexivity] ].
Qed.

Lemma telegram_send_own (br : Browser) (context page : Handle)
    (user_search message : string) (s s' : State) r :
  telegram_send br context page user_search message s = (r, s') ->
  db s' = db s
  /\ (forall path, path <> telegram_session_file ->
        files s' !! path = files s !! path)
  /\ exists evs,
       trace s' = trace s ++ evs
       /\ Forall (own_event context page) evs
       /\ forall restored, ~ In (NewContext restored) evs.
Proof.
  run. answers br; intros [= <- <-]; cbn;
    (split; [reflexivity |]);
    (split; [intros path Hp; by rewrite ?lookup_insert_ne |]);
    rewrite <- ?app_assoc; cbn [app]; eexists;
    (split; [reflexivity |]);
    (split; [repeat constructor | intros restored H; in_cases H]).
Qed.

(** X4. Whatever the title and the browser, a call of the handler stays
    within what it made itself: every record is a log line, the creation of
    its context, or an action on that context and its page. It creates at
    most one context, as the first thing it records, writes no file other
    than the session file of the chat site and never touches the ledger. *)
Theorem handler_keeps_to_its_own (br : Browser) (title : string)
    (s s' : State) r :
  Telegram br title s = (r, s') ->
  db s' = db s
  /\ (forall path, path <> telegram_session_file ->
        files s' !! path = files s !! path)
  /\ Forall (own_event (length (trace s)) (S (length (trace s))))
       (events_since s s')
  /\ (forall restored, ~ In (NewContext restored) (tail (events_since s s'))).
Proof.
  unfold Telegram, bind at 1.
  destruct (telegram_open br s) as [ro s1] eqn:O.
  destruct (telegram_open_run _ _ _ _ O)
    as (D1 & F1 & [(-> & T1 & _) | (b & m & -> & _ & T1)]).
  - intros [= <- <-]. rewrite D1, F1. split; [done |]. split; [done |].
    rewrite (events_since_app s s1 []) by (by rewrite app_nil_r).
    split; [constructor | intros restored []].
  - destruct (length (Py.split title) <? 3)%nat.
    + unfold log, emit. intros [= <- <-]. cbn. rewrite D1, F1.
      split; [done |]. split; [done |].
      erewrite events_since_app
        by (cbn; rewrite T1, <- app_assoc; reflexivity).
      split; [repeat constructor | intros restored H; in_cases H].
    + unfold bind at 1.
      destruct (Py.split title !! 1%nat) as [user_search |] eqn:W;
        unfold index; rewrite W; unfold ret, raise.
      * intros H. apply telegram_send_own in H as (D2 & F2 & evs & T2 & O2 & N2).
        rewrite D2, D1. split; [done |].
        split; [intros path Hp; by rewrite F2, F1 |].
        erewrite events_since_app
          by (rewrite T2, T1, <- app_assoc; reflexivity).
        split.
        -- cbn [app]. repeat (constructor; [done |]). exact O2.
        -- intros restored H. cbn in H. in_cases H. by apply N2 in H.
      * intros [= <- <-]. rewrite D1, F1. split; [done |]. split; [done |].
        erewrite events_since_app by (rewrite T1; reflexivity).
        split; [repeat constructor | intros restored H; in_cases H].
Qed.

(** ** More on the ledger *)

(** X5. Saving an entry changes the answer of the lookup for no other
    key: for a title, date and time that differ from the saved ones in at
    least one component, [entry_exists] answers after the insertion what it
    answered before. On a table that was just created every lookup answers
    no. *)
Theorem save_entry_leaves_other_keys :
  (forall title date time title' date' time' s s1,
     save_entry title date time s = (inr tt, s1) ->
     (title', date', time') <> (title, date, time) ->
     (entry_exists title' date' time' s1).1 = (entry_exists title' date' time' s).1)
  /\ (forall title date time s s0,
     db s = None ->
     init_db s = (inr tt, s0) ->
     entry_exists title date time s0 = (inr false, s0)).
Proof.
  split.
  - intros title date time title' date' time' s s1. unfold save_entry.
    destruct (db s) as [t |] eqn:E; [| discriminate]. intros [= <-] Hne.
    unfold entry_exists. cbn. rewrite E. cbn. rewrite existsb_app. cbn.
    replace (row_matches title' date' time' _) with false; [by rewrite !orb_false_r |].
    symmetry. apply not_true_is_false. intros H.
    apply row_matches_key in H. cbn in H. by injection H as -> -> ->.
  - intros title date time s s0 E. unfold init_db. rewrite E. intros [= <-].
    reflexivity.
Qed.

Lemma ids_ordered_empty : ids_ordered (Some {| rows := []; seq := 0 |}).
Proof.
  intros t [= <-]. cbn. split; [intros r [] |].
  intros i j ri rj H. by rewrite lookup_nil in H.
Qed.

Lemma ids_ordered_insert (t : Table) (title date time : string) :
  ids_ordered (Some t) -> ids_ordered (Some (insert_row title date time t)).
Proof.
  intros H t' [= <-]. destruct (H t eq_refl) as [B O]. cbn. split.
  - intros r Hr. apply in_app_or in Hr. destruct Hr as [Hr | [<- | []]].
    + specialize (B r Hr). lia.
    + cbn. lia.
  - intros i j ri rj Hi Hj Hlt.
    assert (Li : (i < length (rows t))%nat).
    { apply lookup_lt_Some in Hi, Hj. rewrite length_app in Hi, Hj. cbn in *. lia. }
    rewrite lookup_app_l in Hi by done.
    destruct (decide (j < length (rows t))%nat) as [Lj | Lj].
    + rewrite lookup_app_l in Hj by done. by eapply O.
    + rewrite lookup_app_r in Hj by lia.
      destruct (j - length (rows t))%nat as [| m]; cbn in Hj;
        [| by destruct m].
      injection Hj as <-. cbn.
      assert (In ri (rows t)) as Hin
        by (apply list_elem_of_In; by eapply list_elem_of_lookup_2).
      specialize (B ri Hin). lia.
Qed.

Lemma run_op_ids (op : Operation) (s : State) :
  ids_ordered (db s) -> ids_ordered (db (run_op op s)).
Proof.
  assert (K : forall A (m : M A),
            keeps (fun _ => True) (fun d d' => ids_ordered d -> ids_ordered d') m ->
            ids_ordered (db s) -> ids_ordered (db (m s).2)).
  { intros A m H. destruct (m s) as [r s'] eqn:E. by destruct (H _ _ _ E). }
  destruct op; cbn [run_op]; apply K.
  - apply keeps_init_db; [done | intros _; apply ids_ordered_empty].
  - by apply keeps_entry_exists.
  - intros s0 r s'. unfold save_entry. destruct (db s0) as [t |] eqn:E.
    + intros [= <- <-]. split; [exists []; split; [by rewrite app_nil_r | constructor] |].
      cbn. rewrite E. apply ids_ordered_insert.
    + intros [= <- <-]. by apply step_refl.
  - by apply keeps_Telegram; [| intros a b c H1 H2 H; apply H2, H1 |].
  - apply keeps_poll_cycle;
      [done | intros a b c H1 H2 H; by apply H2, H1 | done
      | intros; by apply ids_ordered_insert | done].
  - apply keeps_main;
      [done | intros a b c H1 H2 H; by apply H2, H1 | done
      | intros _; apply ids_ordered_empty
      | intros; by apply ids_ordered_insert | done].
Qed.

(** X6. The ids of the ledger. Whatever sequence of operations of the
    program runs (creating the table, lookups, insertions, the handler,
    rounds of the loop, the whole of [main]), the ids of the rows stay
    positive, at most the AUTOINCREMENT counter, and strictly increasing
    in insertion order; in particular no two rows share an id. *)
Theorem ids_stay_ordered (ops : list Operation) (s : State) :
  ids_ordered (db s) ->
  ids_ordered (db (run_ops ops s))
  /\ forall t, db (run_ops ops s) = Some t -> NoDup (map row_id (rows t)).
Proof.
  intros H.
  assert (G : ids_ordered (db (run_ops ops s))).
  { revert s H. induction ops as [| op ops IH]; intros s H; cbn; [done |].
    apply IH. by apply run_op_ids. }
  split; [exact G |]. intros t E. destruct (G t E) as [_ O].
  apply NoDup_alt. intros i j x Hi Hj.
  rewrite list_lookup_fmap in Hi, Hj.
  destruct (rows t !! i) as [ri |] eqn:Ri; [| discriminate].
  destruct (rows t !! j) as [rj |] eqn:Rj; [| discriminate].
  cbn in Hi, Hj. injection Hi as <-. injection Hj as Hj.
  destruct (Nat.lt_trichotomy i j) as [L | [L | L]]; [| done |].
  - specialize (O i j ri rj Ri Rj L). lia.
  - specialize (O j i rj ri Rj Ri L). lia.
Qed.

(** ** More on the loop *)

(** X7. When the list of entries never shows up, the loop neither stops
    nor raises: each round navigates, waits, logs the timeout it caught
    (lines 162-166) and goes on to the next round. Nothing is counted,
    clicked, read, saved or sent. *)
Theorem list_that_never_shows_up (br : Browser) (page : Handle) :
  (forall t, appears br t entry_list 15000 = false) ->
  forall n s,
    poll_loop br page n s = (inr tt, extend (timed_out_rounds page n) s).
Proof.
  intros H. induction n as [| n IH]; intros s.
  - cbn. unfold ret. by rewrite extend_nil.
  - cbn [poll_loop]. unfold bind at 1.
    assert (R : poll_cycle br page s =
      (inr tt,
       extend (cycle_header page ++
               [WaitForSelector page entry_list 15000 false;
                LogExn ERROR "Error waiting for journal entries: " TimeoutError]) s)).
    { unfold poll_cycle. run. rewrite H. cbn. by tidy. }
    rewrite R, IH, extend_extend, <- app_assoc. reflexivity.
Qed.

(** Close the side condition that one explicit record is [scan_only]. *)
Ltac scan_ok :=
  cbn; unfold round_log;
  first [ reflexivity | exact I | left; reflexivity
        | right; left; reflexivity | right; right; reflexivity ].




(** X9. One round of the loop adds at most one row to the ledger, however
    it ends. When it adds one, the ledger had no row with that title, date
    and time, the row holds exactly the three texts the round read from
    the page, and the round logged the line that says so. *)
Theorem a_round_adds_at_most_one_row (br : Browser) (page : Handle)
    (s s' : State) r :
  poll_cycle br page s = (r, s') ->
  db s' = db s
  \/ exists t title date time,
       db s = Some t
       /\ entry_exists title date time s = (inr false, s)
       /\ db s' = Some (insert_row title date time t)
       /\ In (TextContent page title_text title) (events_since s s')
       /\ In (TextContent page date_text date) (events_since s s')
       /\ In (TextContent page time_text time) (events_since s s')
       /\ In (Log INFO (saved_message title date time)) (events_since s s').
Proof.
  intros H. apply poll_cycle_outcome in H.
  destruct H as [(_ & ->) | [(n & evs & _ & _ & ->)
    | (n & evs & title & date & time & post & Sc & T & F & H)]];
    [by left | by left |].
  destruct H as [(_ & _ & _ & D) | [(_ & _ & _ & D)
    | (t & post' & s1 & E & X & D & -> & _)]]; [by left | by left |].
  right. exists t, title, date, time. rewrite T.
  split; [done |]. split; [done |]. split; [done |].
  unfold cycle_reads.
  repeat split; apply in_or_app;
    first [ right; by left
          | left; apply in_or_app; right; do 2 right; apply in_or_app; right;
            in_list ].
Qed.

(** A journal that keeps showing one plain entry first, with one title,
    date and time. *)
Section StableEntry.

Variable br : Browser.
Variable page : Handle.
Variables title date time : string.
Hypothesis list_shows : forall t, appears br t entry_list 15000 = true.
Hypothesis some_entry : forall t, count_of br t entry_list <> 0%nat.
Hypothesis first_plain : forall t, svg_count_of br t entry_list 0 = 0%nat.
Hypothesis shows_title : forall t, text_of br t title_text = title.
Hypothesis shows_date : forall t, text_of br t date_text = date.
Hypothesis shows_time : forall t, text_of br t time_text = time.

Lemma stable_round (s : State) :
  exists c,
    poll_cycle br page s =
    dedup br title date time
      (extend (cycle_header page ++
               [WaitForSelector page entry_list 15000 true;
                Count page entry_list c;
                SvgCount page entry_list 0 0; ClickNth page entry_list 0;
                TextContent page title_text title;
                TextContent page date_text date;
                TextContent page time_text time]) s).
Proof.
  unfold poll_cycle. run. rewrite list_shows. cbn.
  destruct (count_of br _ entry_list) as [| c] eqn:C; [by apply some_entry in C |].
  exists (S c). cbn [scan_entries]. run. rewrite first_plain. cbn.
  unfold process_entry. run.
  rewrite shows_title, shows_date, shows_time. tidy. reflexivity.
Qed.

Lemma stable_known_round (s : State) :
  entry_exists title date time s = (inr true, s) ->
  exists evs,
    poll_cycle br page s = (inr tt, extend evs s)
    /\ Forall (journal_only page) evs.
Proof.
  intros K. destruct (stable_round s) as (c & R).
  destruct (dedup br title date time _) as [r s'] eqn:E in R.
  apply dedup_run in E.
  destruct E as [(E & _) | [(_ & -> & ->) | (t & _ & X & _)]].
  - unfold entry_exists in K. cbn in E. rewrite E in K. discriminate K.
  - rewrite extend_extend in R. eexists. split; [exact R |].
    unfold cycle_header. cbn [app].
    repeat (constructor; [solve [scan_ok] |]). constructor.
  - rewrite (entry_exists_extend _ _ _ _ _ _ K) in X. discriminate X.
Qed.

End StableEntry.

(** X10. On a journal that keeps showing the same plain entry first, the
    entry is saved once. The first round on a ledger without it inserts
    exactly that row, whatever the dispatcher does afterwards, and the
    lookup then answers yes; from a ledger that has it, any number of
    rounds end normally and only navigate, wait, count, open and read the
    entry and log: the ledger is unchanged and nothing is handed to the
    dispatcher again. *)
Theorem stable_entry_is_saved_once (br : Browser) (page : Handle)
    (title date time : string) :
  (forall t, appears br t entry_list 15000 = true) ->
  (forall t, count_of br t entry_list <> 0%nat) ->
  (forall t, svg_count_of br t entry_list 0 = 0%nat) ->
  (forall t, text_of br t title_text = title) ->
  (forall t, text_of br t date_text = date) ->
  (forall t, text_of br t time_text = time) ->
  (forall s t0 r s',
     db s = Some t0 ->
     entry_exists title date time s = (inr false, s) ->
     poll_cycle br page s = (r, s') ->
     db s' = Some (insert_row title date time t0)
     /\ entry_exists title date time s' = (inr true, s'))
  /\ (forall n s,
        entry_exists title date time s = (inr true, s) ->
        exists evs,
          poll_loop br page n s = (inr tt, extend evs s)
          /\ Forall (journal_only page) evs).
Proof.
  intros list_shows some_entry first_plain shows_title shows_date shows_time.
  pose proof (stable_round br page title date time list_shows some_entry
                first_plain shows_title shows_date shows_time) as Round.
  pose proof (stable_known_round br page title date time list_shows some_entry
                first_plain shows_title shows_date shows_time) as Known.
  split.
  - intros s t0 r s' D N H. destruct (Round s) as (c & R).
    rewrite R in H. apply dedup_run in H.
    destruct H as [(E & _) | [(X & _) | (t & E & _ & H)]].
    + cbn in E. congruence.
    + rewrite (entry_exists_extend _ _ _ _ _ _ N) in X. discriminate X.
    + cbn in E. rewrite D in E. injection E as <-.
      apply dispatch_step in H as [_ Hd]. cbn in Hd.
      split; [done |]. unfold entry_exists. rewrite <- Hd.
      unfold insert_row. cbn [rows]. rewrite existsb_app. cbn.
      unfold row_matches. cbn. by rewrite !String.eqb_refl, orb_true_r.
  - induction n as [| n IH]; intros s K.
    + exists []. split; [cbn; unfold ret; by rewrite extend_nil | constructor].
    + cbn [poll_loop]. unfold bind at 1.
      destruct (Known s K) as (e1 & R1 & F1). rewrite R1.
      destruct (IH (extend e1 s) (entry_exists_extend _ _ _ _ _ _ K))
        as (e2 & R2 & F2).
      rewrite R2, extend_extend. exists (e1 ++ e2).
      split; [done | by apply Forall_app].
Qed.

(** ** How [main] ends *)

Lemma telegram_send_returns (br : Browser) (context page : Handle)
    (user_search message : string) (s s' : State) r :
  telegram_send br context page user_search message s = (r, s') -> r = inr tt.
Proof. run. answers br; by intros [= <- <-]. Qed.

(** The two ways the dispatcher can fail: the title has no word, or the
    session file of the chat site is not JSON. *)
Lemma dispatch_ends (br : Browser) (title : string) (s s' : State) r :
  dispatch br title s = (r, s') ->
  r = inr tt
  \/ (r = inl IndexError /\ s' = s /\ Py.split title = [])
  \/ (r = inl JSONDecodeError
      /\ exists content,
           files s' !! telegram_session_file = Some content
           /\ json_loads br content = false).
Proof.
  unfold dispatch, bind at 1, index.
  destruct (Py.split title) as [| word rest] eqn:W; cbn [lookup list_lookup];
    unfold ret, raise; [intros [= <- <-]; auto |].
  unfold bind at 1, log at 1, emit.
  destruct (_ && _); [| intros [= <- <-]; auto].
  unfold bind at 1, log at 1, emit. unfold Telegram, bind at 1.
  destruct (telegram_open br _) as [ro s1] eqn:O.
  destruct (telegram_open_run _ _ _ _ O)
    as (_ & F1 & [(-> & _ & content & C & J) | (b & m & -> & _)]).
  - intros [= <- <-]. right. right. split; [done |]. exists content.
    by rewrite F1.
  - rewrite W. destruct (length (word :: rest) <? 3)%nat eqn:Len;
      [unfold log, emit; intros [= <- <-]; auto |].
    unfold bind at 1, index.
    destruct rest as [| user_search rest]; [discriminate Len |].
    cbn [lookup list_lookup]. unfold ret.
    intros H. apply telegram_send_returns in H. auto.
Qed.

Lemma poll_cycle_ends (br : Browser) (page : Handle) (s s' : State) r :
  is_Some (db s) ->
  poll_cycle br page s = (r, s') ->
  is_Some (db s')
  /\ (r = inr tt
      \/ (r = inl IndexError
          /\ exists t title date time,
               db s' = Some (insert_row title date time t)
               /\ Py.split title = [])
      \/ (r = inl JSONDecodeError
          /\ exists content,
               files s' !! telegram_session_file = Some content
               /\ json_loads br content = false)).
Proof.
  intros T H. apply poll_cycle_outcome in H.
  destruct H as [(-> & ->) | [(n & evs & _ & -> & ->)
    | (n & evs & title & date & time & post & _ & _ & _ & H)]];
    [by auto | by auto |].
  destruct H as [(E & _) | [(_ & -> & _ & D)
    | (t & p & s1 & _ & _ & D & _ & _ & _ & H)]].
  - rewrite E in T. by destruct T.
  - rewrite D. auto.
  - rewrite D. split; [by eexists |].
    apply dispatch_ends in H as [-> | [(-> & _ & W) | (-> & J)]]; auto.
    right. left. split; [done |]. by exists t, title, date, time.
Qed.

Lemma poll_loop_ends (br : Browser) (page : Handle) (n : nat) :
  forall s s' r,
    is_Some (db s) ->
    poll_loop br page n s = (r, s') ->
    is_Some (db s')
    /\ (r = inr tt
        \/ (r = inl IndexError
            /\ exists t title date time,
                 db s' = Some (insert_row title date time t)
                 /\ Py.split title = [])
        \/ (r = inl JSONDecodeError
            /\ exists content,
                 files s' !! telegram_session_file = Some content
                 /\ json_loads br content = false)).
Proof.
  induction n as [| n IH]; intros s s' r T.
  - intros [= <- <-]. auto.
  - cbn [poll_loop]. unfold bind at 1.
    destruct (poll_cycle br page s) as [[e | []] s1] eqn:C;
      destruct (poll_cycle_ends _ _ _ _ _ T C) as [T1 R1].
    + by intros [= <- <-].
    + by apply IH.
Qed.

(** How the journal site is opened: the session file is kept when it has
    content and made otherwise; the context is created when the file is
    JSON. *)
Lemma main_open_run (br : Browser) (s : State) :
  exists content,
    content = match files s !! state_file with
              | Some (String c rest) => String c rest
              | _ => "{}"
              end
    /\ exists s1,
    main_open br s =
       (if json_loads br content
        then inr (S (length (trace s)), S (S (length (trace s))))
        else inl JSONDecodeError, s1)
    /\ trace s1 =
       trace s ++ Launch ::
       (if json_loads br content
        then [NewContext (Some content); NewPage (S (length (trace s)))]
        else [])
    /\ db s1 = db s
    /\ files s1 !! state_file = Some content
    /\ (forall path, path <> state_file -> files s1 !! path = files s !! path)
    /\ "sessions" ∈ dirs s1.
Proof.
  assert (L : forall (l : list Event) e, length (l ++ [e]) = S (length l))
    by (intros l e; rewrite length_app; cbn; lia).
  assert (B : json_loads br "{}" = true) by reflexivity.
  unfold main_open, main_state_file, stat_size. run.
  remember (json_loads br) as loads eqn:Hloads. clear Hloads.
  destruct (files s !! state_file) as [[| c content] |] eqn:E;
    do 3 (cbn; rewrite ?E, ?lookup_insert_eq); cbn;
    eexists; (split; [reflexivity |]); rewrite ?B;
    try destruct (loads (String c content)); cbn; rewrite ?L;
    eexists; (split; [reflexivity |]); cbn; rewrite <- ?app_assoc;
    (split; [reflexivity |]); (split; [reflexivity |]);
    (split; [by rewrite ?lookup_insert_eq |]);
    (split; [intros path Hp; by rewrite ?lookup_insert_ne |]);
    set_solver.
Qed.

(** The four runs of the journal login, by what the browser answers. *)
Lemma main_login_run (br : Browser) (RH_EMAIL RH_PASS : string)
    (context page : Handle) (s : State) :
  main_login br RH_EMAIL RH_PASS context page s =
  if visible br (length (trace s) + 1) "input#username" then
    if appears br (length (trace s) + 2) "input#username" 30000 then
      if appears br (length (trace s) + 4) "input#password" 30000 then
        (inr tt,
         extend [Goto page "https://hole.rabbit.tech";
                 IsVisible page "input#username" true;
                 WaitForSelector page "input#username" 30000 true;
                 Fill page "input#username" RH_EMAIL;
                 WaitForSelector page "input#password" 30000 true;
                 Fill page "input#password" RH_PASS;
                 Click page submit_button;
                 WaitForLoadState page "load";
                 StorageState context state_file]
           (set_files
              (fun fs =>
                 <[state_file := session_json br (length (trace s) + 8)]> fs) s))
      else
        (inl TimeoutError,
         extend [Goto page "https://hole.rabbit.tech";
                 IsVisible page "input#username" true;
                 WaitForSelector page "input#username" 30000 true;
                 Fill page "input#username" RH_EMAIL;
                 WaitForSelector page "input#password" 30000 false] s)
    else
      (inl TimeoutError,
       extend [Goto page "https://hole.rabbit.tech";
               IsVisible page "input#username" true;
               WaitForSelector page "input#username" 30000 false] s)
  else
    (inr tt,
     extend [Goto page "https://hole.rabbit.tech";
             IsVisible page "input#username" false;
             Log INFO "Already logged in."] s).
Proof.
  assert (L : forall (l : list Event) e, length (l ++ [e]) = (length l + 1)%nat)
    by (intros; rewrite length_app; reflexivity).
  unfold main_login. run. rewrite !L.
  destruct (visible br (length (trace s) + 1) "input#username"); cbn;
    [| by tidy].
  rewrite !L.
  replace (length (trace s) + 1 + 1)%nat with (length (trace s) + 2)%nat by lia.
  destruct (appears br (length (trace s) + 2) "input#username" 30000); cbn;
    [| by tidy].
  rewrite !L.
  replace (length (trace s) + 1 + 1 + 1 + 1)%nat
    with (length (trace s) + 4)%nat by lia.
  destruct (appears br (length (trace s) + 4) "input#password" 30000); cbn;
    [| by tidy].
  rewrite !L.
  replace (length (trace s) + 1 + 1 + 1 + 1 + 1 + 1 + 1 + 1)%nat
    with (length (trace s) + 8)%nat by lia.
  by tidy.
Qed.

(** How [main] ends, and where. *)
Lemma main_run_ends (br : Browser) (RH_EMAIL RH_PASS : string)
    (cycles : nat) (s s' : State) r :
  main br RH_EMAIL RH_PASS cycles s = (r, s') ->
  is_Some (db s')
  /\ (r = inr tt
      \/ (r = inl TimeoutError
          /\ exists page selector,
               (selector = "input#username" \/ selector = "input#password")
               /\ last (trace s') =
                  Some (WaitForSelector page selector 30000 false))
      \/ (r = inl IndexError
          /\ exists t title date time,
               db s' = Some (insert_row title date time t)
               /\ Py.split title = [])
      \/ (r = inl JSONDecodeError
          /\ ((exists content,
                 files s !! state_file = Some content
                 /\ json_loads br content = false
                 /\ events_since s s' = [Launch])
              \/ (exists content,
                    files s' !! telegram_session_file = Some content
                    /\ json_loads br content = false)))).
Proof.
  unfold main, bind at 1.
  destruct (init_db s) as [ri s0] eqn:I.
  assert (ri = inr tt /\ is_Some (db s0) /\ files s0 = files s
          /\ trace s0 = trace s) as (-> & T0 & F0 & Tr0).
  { unfold init_db in I. destruct (db s) eqn:E; injection I as <- <-;
      repeat split; try done; cbn; rewrite ?E; by eexists. }
  unfold bind at 1.
  destruct (main_open_run br s0) as (content & C & s1 & -> & Tr1 & D1 & F1 & _).
  destruct (json_loads br content) eqn:J.
  - unfold bind at 1.
    rewrite (main_login_run br RH_EMAIL RH_PASS _ _ s1).
    destruct (visible br _ _); [destruct (appears br _ _ _);
      [destruct (appears br _ _ _) |] |].
    + intros H. apply poll_loop_ends in H as [T R];
        [| cbn; by rewrite D1].
      split; [exact T |].
      destruct R as [R | [R | (R & K)]];
        [by left | right; right; left; exact R
        | do 3 right; split; [exact R | right; exact K]].
    + intros [= <- <-]. split; [cbn; by rewrite D1 |].
      right. left. split; [done |]. do 2 eexists. split; [by right |].
      cbn [trace extend].
      change (trace s1 ++ [?a; ?b; ?c; ?d; ?e]) with (trace s1 ++ [a; b; c; d] ++ [e]).
      by rewrite app_assoc, last_snoc.
    + intros [= <- <-]. split; [cbn; by rewrite D1 |].
      right. left. split; [done |]. do 2 eexists. split; [by left |].
      cbn [trace extend].
      change (trace s1 ++ [?a; ?b; ?c]) with (trace s1 ++ [a; b] ++ [c]).
      by rewrite app_assoc, last_snoc.
    + intros H. apply poll_loop_ends in H as [T R];
        [| cbn; by rewrite D1].
      split; [exact T |].
      destruct R as [R | [R | (R & K)]];
        [by left | right; right; left; exact R
        | do 3 right; split; [exact R | right; exact K]].
  - intros [= <- <-]. split; [by rewrite D1 |].
    do 3 right. split; [done |]. left. exists content.
    assert (K : files s !! state_file = Some content).
    { rewrite <- F0. rewrite C in J |- *.
      destruct (files s0 !! state_file) as [[| c rest] |]; try done;
        discriminate J. }
    split; [exact K |]. split; [exact J |].
    apply events_since_app. by rewrite Tr1, Tr0.
Qed.

Lemma main_run_result (br : Browser) (RH_EMAIL RH_PASS : string)
    (cycles : nat) (s s' : State) r :
  main br RH_EMAIL RH_PASS cycles s = (r, s') ->
  main_result r /\ is_Some (db s').
Proof.
  intros H. apply main_run_ends in H as [T R]. split; [| exact T].
  unfold main_result.
  destruct R as [R | [(R & _) | [(R & _) | (R & _)]]]; auto.
Qed.

(** X11. How [main] can end, with the page driver as described at the top
    of this file. After any number of rounds it has returned normally or
    stopped with one of three exceptions. A timeout comes from the journal
    login (lines 149 and 151 are outside any [try]): the last record is
    then the wait for the user name or for the password that ran out of
    time. An index error comes from a title without a word (line 197):
    the row saved last then has such a title. A parse error comes from a
    session file that is not JSON: the one of the journal site (line
    142), which then had that content from the start, [main] having
    recorded the launch and nothing else; or the one of the chat site
    (line 18), which then still has that content. [main] never stops on a
    missing table or a missing file: the table is created first and
    stays, and the rows it had at the start are all kept, in order. *)
Theorem main_ends_in_four_ways (br : Browser) (RH_EMAIL RH_PASS : string)
    (cycles : nat) (s s' : State) r :
  main br RH_EMAIL RH_PASS cycles s = (r, s') ->
  main_result r
  /\ r <> inl OperationalError /\ r <> inl FileNotFoundError
  /\ is_Some (db s')
  /\ grows (db s) (db s')
  /\ (r = inl TimeoutError ->
      exists page selector,
        (selector = "input#username" \/ selector = "input#password")
        /\ last (trace s') = Some (WaitForSelector page selector 30000 false))
  /\ (r = inl IndexError ->
      exists t title date time,
        db s' = Some (insert_row title date time t) /\ Py.split title = [])
  /\ (r = inl JSONDecodeError ->
      (exists content,
         files s !! state_file = Some content
         /\ json_loads br content = false
         /\ events_since s s' = [Launch])
      \/ (exists content,
            files s' !! telegram_session_file = Some content
            /\ json_loads br content = false)).
Proof.
  intros H.
  destruct (main_run_result _ _ _ _ _ _ _ H) as [R T].
  split; [exact R |].
  split; [intros ->; destruct R as [R | [R | [R | R]]]; discriminate R |].
  split; [intros ->; destruct R as [R | [R | [R | R]]]; discriminate R |].
  split; [exact T |].
  split.
  { pose proof (run_op_grows (OpMain br RH_EMAIL RH_PASS cycles) s) as G.
    cbn in G. by rewrite H in G. }
  apply main_run_ends in H as [_ E].
  split; [| split]; intros ->;
    destruct E as [E | [(E & K) | [(E & K) | (E & K)]]];
    try discriminate E; exact K.
Qed.

(** ** The journal session and login *)

(** X12. Opening the journal site (lines 132-143). The session file is
    kept as it is when it has content, and is made to hold [{}] when it is
    missing or empty; so the file handed to [new_context] exists and is
    not empty, and a missing file is never met. When that content is JSON
    the context is restored from it, and the launch, the context and its
    page are recorded; this is always so for a file that was missing or
    empty. When the content is not JSON (the file then had it from the
    start) the parse error of line 142 ends the call after the launch. In
    both cases the directory is made, no other file is written and the
    ledger is untouched. *)
Theorem journal_session_is_kept_or_made (br : Browser) (s : State) :
  exists content r s',
    main_open br s = (r, s')
    /\ content = match files s !! state_file with
                 | Some (String c rest) => String c rest
                 | _ => "{}"
                 end
    /\ content <> EmptyString
    /\ files s' !! state_file = Some content
    /\ (forall path, path <> state_file -> files s' !! path = files s !! path)
    /\ "sessions" ∈ dirs s'
    /\ db s' = db s
    /\ r <> inl FileNotFoundError
    /\ (json_loads br content = true ->
        r = inr (S (length (trace s)), S (S (length (trace s))))
        /\ events_since s s' =
           [Launch; NewContext (Some content); NewPage (S (length (trace s)))])
    /\ (json_loads br content = false ->
        r = inl JSONDecodeError
        /\ events_since s s' = [Launch]
        /\ files s !! state_file = Some content)
    /\ (files s !! state_file = None \/ files s !! state_file = Some EmptyString ->
        content = "{}" /\ json_loads br content = true).
Proof.
  destruct (main_open_run br s) as (content & C & s1 & R & Tr & D & F & O & Dir).
  exists content. do 2 eexists. split; [exact R |]. split; [exact C |].
  split; [rewrite C; by destruct (files s !! state_file) as [[| c rest] |] |].
  split; [exact F |]. split; [exact O |]. split; [exact Dir |].
  split; [exact D |].
  split; [by destruct (json_loads br content) |].
  split; [| split].
  - intros J. rewrite J in *. split; [done |]. by apply events_since_app.
  - intros J. rewrite J in *. split; [done |].
    split; [by apply events_since_app |].
    rewrite C in J |- *.
    destruct (files s !! state_file) as [[| c rest] |]; try done; discriminate J.
  - intros [E | E]; rewrite C, E; by split.
Qed.

(** X13. The journal login (lines 145-155), for every browser. What it
    records is fixed by three answers of the browser: whether the login
    form is visible, and whether the waits for the user name field and for
    the password field succeed. With the form visible and both waits
    successful it types the e-mail address into the user name field,
    then the password into the password field, clicks the submit button,
    waits for the page and saves the session, in this order, and the
    session file then holds what the browser handed out. A wait that
    times out ends the login with the timeout, before anything further
    is typed. Without the form it only logs that it is logged in. It
    types nothing but the two credentials, each into its own field, and
    the password only after the address; it writes no file but the
    session file of the journal site, and leaves the ledger alone. *)
Theorem login_fills_only_the_two_fields (br : Browser)
    (RH_EMAIL RH_PASS : string) (context page : Handle) (s s' : State) r :
  main_login br RH_EMAIL RH_PASS context page s = (r, s') ->
  events_since s s' =
    Goto page "https://hole.rabbit.tech" ::
    IsVisible page "input#username"
      (visible br (length (trace s) + 1) "input#username") ::
    (if visible br (length (trace s) + 1) "input#username" then
       WaitForSelector page "input#username" 30000
         (appears br (length (trace s) + 2) "input#username" 30000) ::
       (if appears br (length (trace s) + 2) "input#username" 30000 then
          Fill page "input#username" RH_EMAIL ::
          WaitForSelector page "input#password" 30000
            (appears br (length (trace s) + 4) "input#password" 30000) ::
          (if appears br (length (trace s) + 4) "input#password" 30000 then
             [Fill page "input#password" RH_PASS;
              Click page submit_button;
              WaitForLoadState page "load";
              StorageState context state_file]
           else [])
        else [])
     else [Log INFO "Already logged in."])
  /\ r = (if visible br (length (trace s) + 1) "input#username"
             && negb (appears br (length (trace s) + 2) "input#username" 30000
                      && appears br (length (trace s) + 4) "input#password" 30000)
          then inl TimeoutError else inr tt)
  /\ files s' =
     (if visible br (length (trace s) + 1) "input#username"
         && appears br (length (trace s) + 2) "input#username" 30000
         && appears br (length (trace s) + 4) "input#password" 30000
      then <[state_file := session_json br (length (trace s) + 8)]> (files s)
      else files s)
  /\ db s' = db s
  /\ dirs s' = dirs s
  /\ (forall selector value,
        In (Fill page selector value) (events_since s s') ->
        (selector = "input#username" /\ value = RH_EMAIL)
        \/ (selector = "input#password" /\ value = RH_PASS))
  /\ (forall before after,
        events_since s s' = before ++ Fill page "input#password" RH_PASS :: after ->
        In (Fill page "input#username" RH_EMAIL) before)
  /\ (In (Click page submit_button) (events_since s s') ->
      r = inr tt
      /\ last (events_since s s') = Some (StorageState context state_file)
      /\ exists t, files s' !! state_file = Some (session_json br t))
  /\ (forall path, path <> state_file -> files s' !! path = files s !! path).
Proof.
  rewrite main_login_run.
  destruct (visible br _ "input#username");
    [destruct (appears br _ "input#username" 30000);
      [destruct (appears br _ "input#password" 30000) |] |];
    intros [= <- <-]; events; cbn.
  all: split; [reflexivity |].
  all: split; [reflexivity |].
  all: split; [reflexivity |].
  all: split; [reflexivity |].
  all: split; [reflexivity |].
  all: split;
    [intros selector value H; in_cases H; injection H as <- <-; auto |].
  all: split.
  all: try (split; [intros H; first [solve [in_cases H]
                     | split; [done |]; split; [done |]; eexists;
                       apply lookup_insert_eq] |]).
  all: try (intros path Hp; by rewrite ?lookup_insert_ne).
  all: intros before after E.
  all: repeat (destruct before as [| ? before];
               [try discriminate E | injection E as <- E]);
       try solve [in_list]; try solve [by destruct before].
Qed.

(** ** Splitting and joining *)

Lemma append_empty (w : string) : w +:+ EmptyString = w.
Proof.
  induction w as [| c w IH]; [done |].
  change (String c (w +:+ EmptyString) = String c w). by rewrite IH.
Qed.

Lemma of_rev_rev (w : string) : Py.of_rev (rev (list_ascii_of_string w)) = w.
Proof.
  unfold Py.of_rev. rewrite rev_involutive. apply string_of_list_ascii_of_string.
Qed.

(** Reading a word without whitespace moves it onto the current run. *)
Lemma split_aux_word (w : string) : forall word rest,
  Forall (fun c => Py.isspace c = false) (list_ascii_of_string w) ->
  Py.split_aux word (w +:+ rest) =
  Py.split_aux (rev (list_ascii_of_string w) ++ word) rest.
Proof.
  induction w as [| c w IH]; intros word rest H; [done |].
  change (String c w +:+ rest) with (String c (w +:+ rest)).
  cbn [Py.split_aux list_ascii_of_string rev] in *.
  apply Forall_cons in H as [Hc H]. rewrite Hc, IH by done.
  by rewrite <- app_assoc.
Qed.

Lemma split_aux_tokens_full (s : string) : forall word,
  Forall (fun c => Py.isspace c = false) word ->
  Forall token (Py.split_aux word s).
Proof.
  assert (R : forall c word,
            Forall (fun c => Py.isspace c = false) (c :: word) ->
            token (Py.of_rev (c :: word))).
  { intros c word H. split.
    - intros E. apply (f_equal list_ascii_of_string) in E.
      rewrite of_rev_chars in E. cbn in E. by destruct (rev word).
    - rewrite of_rev_chars. by apply List.Forall_rev. }
  induction s as [| c s IH]; intros word H; cbn.
  - destruct word; [constructor |]. constructor; [by apply R | constructor].
  - destruct (Py.isspace c) eqn:E.
    + destruct word; [apply IH; constructor |].
      constructor; [by apply R | apply IH; constructor].
    + apply IH. by constructor.
Qed.

Lemma split_join_tokens (ws : list string) :
  Forall token ws -> Py.split (Py.join " " ws) = ws.
Proof.
  unfold Py.split, Py.join. induction ws as [| w ws IH]; intros H; [done |].
  apply Forall_cons in H as [[Hn Hw] H].
  assert (A : rev (list_ascii_of_string w) <> []).
  { intros E. apply Hn. apply (f_equal (@rev ascii)) in E.
    rewrite rev_involutive in E. cbn in E.
    rewrite <- (string_of_list_ascii_of_string w), E. reflexivity. }
  destruct ws as [| w2 rest].
  - cbn [String.concat]. rewrite <- (append_empty w) at 1.
    rewrite split_aux_word by done. rewrite app_nil_r. cbn [Py.split_aux].
    destruct (rev (list_ascii_of_string w)) eqn:E; [done |].
    by rewrite <- E, of_rev_rev.
  - change (String.concat " " (w :: w2 :: rest))
      with (w +:+ String " " (String.concat " " (w2 :: rest))).
    rewrite split_aux_word by done. rewrite app_nil_r.
    cbn [Py.split_aux].
    change (Py.isspace " ") with true. cbv iota.
    destruct (rev (list_ascii_of_string w)) eqn:E; [done |].
    rewrite <- E, of_rev_rev. f_equal. by apply IH.
Qed.

(** X14. Splitting and joining (lines 28 and 34). Every word that
    [split] yields is a token: not empty and free of whitespace. Joining
    tokens with one space and splitting again gives the tokens back. So the
    message line 34 builds splits into exactly the words of the title after
    the second: runs of whitespace in the title are collapsed to single
    spaces, and the message neither starts nor ends with whitespace. *)
Theorem split_and_join_round_trip :
  (forall s, Forall token (Py.split s))
  /\ (forall ws, Forall token ws -> Py.split (Py.join " " ws) = ws)
  /\ (forall s, Py.split (Py.join " " (Py.split s)) = Py.split s)
  /\ (forall title,
        Py.split (Py.join " " (drop 2 (Py.split title))) = drop 2 (Py.split title)).
Proof.
  assert (T : forall s, Forall token (Py.split s))
    by (intros s; apply split_aux_tokens_full; constructor).
  split; [exact T |]. split; [exact split_join_tokens |].
  split; [intros s; apply split_join_tokens, T |].
  intros title. apply split_join_tokens, Forall_drop, T.
Qed.

(** ** The start of the program *)

(** X15. The start of the script (lines 88-96 and 203-204). When the
    e-mail address or the password is unset or empty the script logs one
    error and exits with status 1; then neither the ledger nor any file
    was touched. With both set it runs [main] with them, which creates the
    ledger. The script exits by itself in no other case and with no other
    status. *)
Theorem script_needs_both_credentials (environ : gmap string string)
    (br : Browser) (cycles : nat) (s : State) :
  (falsy (environ !! "RABBITHOLE_EMAIL") = true
   \/ falsy (environ !! "RABBITHOLE_PASSWORD") = true ->
   script environ br cycles s =
     (Exited 1,
      extend [Log ERROR
        "Failed to load environment variables. Please check the .env file."] s))
  /\ (forall email password,
        environ !! "RABBITHOLE_EMAIL" = Some email -> email <> EmptyString ->
        environ !! "RABBITHOLE_PASSWORD" = Some password ->
        password <> EmptyString ->
        exists r s',
          main br email password cycles s = (r, s')
          /\ script environ br cycles s = (Returned r, s')
          /\ main_result r /\ is_Some (db s'))
  /\ (forall status s',
        script environ br cycles s = (Exited status, s') ->
        status = 1%Z /\ db s' = db s /\ files s' = files s
        /\ (falsy (environ !! "RABBITHOLE_EMAIL") = true
            \/ falsy (environ !! "RABBITHOLE_PASSWORD") = true)).
Proof.
  split; [| split].
  - intros H. unfold script.
    replace (falsy _ || falsy _) with true; [done |].
    symmetry. apply orb_true_iff. exact H.
  - intros email password He Hne Hp Hnp. unfold script. rewrite He, Hp.
    destruct email; [done |]. destruct password; [done |]. cbn.
    destruct (main br _ _ cycles s) as [r s'] eqn:M.
    exists r, s'. split; [done |]. split; [done |].
    by eapply main_run_result.
  - intros status s'. unfold script.
    destruct (falsy _ || falsy _) eqn:F.
    + intros [= <- <-]. apply orb_true_iff in F. auto.
    + destruct (main br _ _ cycles s). discriminate.
Qed.

(** ** Which titles are routed *)

Lemma chars_app (a b : string) :
  list_ascii_of_string (a +:+ b) = list_ascii_of_string a ++ list_ascii_of_string b.
Proof.
  induction a as [| c a IH]; [done |].
  change (String c a +:+ b) with (String c (a +:+ b)). cbn. by rewrite IH.
Qed.

Lemma of_chars_app (k l : list ascii) :
  string_of_list_ascii (k ++ l) = string_of_list_ascii k +:+ string_of_list_ascii l.
Proof.
  induction k as [| c k IH]; [done |]. cbn [app string_of_list_ascii].
  change (String c (string_of_list_ascii k) +:+ string_of_list_ascii l)
    with (String c (string_of_list_ascii k +:+ string_of_list_ascii l)).
  by rewrite IH.
Qed.

Lemma reverse_app (a b : string) :
  Py.reverse (a +:+ b) = Py.reverse b +:+ Py.reverse a.
Proof. unfold Py.reverse. by rewrite chars_app, rev_app_distr, of_chars_app. Qed.

Lemma lstrip_app (p : ascii -> bool) (before s : string) :
  Forall (fun c => p c = true) (list_ascii_of_string before) ->
  Py.lstrip p (before +:+ s) = Py.lstrip p s.
Proof.
  induction before as [| c before IH]; intros H; [done |].
  change (String c before +:+ s) with (String c (before +:+ s)).
  cbn in *. apply Forall_cons in H as [Hc H]. rewrite Hc. by apply IH.
Qed.

Lemma lstrip_prefix (p : ascii -> bool) (s : string) :
  exists before,
    s = before +:+ Py.lstrip p s
    /\ Forall (fun c => p c = true) (list_ascii_of_string before).
Proof.
  induction s as [| c s IH].
  - exists EmptyString. split; [done | constructor].
  - cbn [Py.lstrip]. destruct (p c) eqn:E.
    + destruct IH as (before & Hs & Hb). exists (String c before). split.
      * change (String c before +:+ Py.lstrip p s)
          with (String c (before +:+ Py.lstrip p s)). by rewrite <- Hs.
      * cbn. by constructor.
    + exists EmptyString. split; [done | constructor].
Qed.

Lemma telegram_token_keyword (w : string) :
  spec_keyword w = "telegram" <-> telegram_token w.
Proof.
  unfold spec_keyword, Py.strip_chars, telegram_token. fold punct.
  change (fun c => Py.mem_char c punctuation) with punct.
  split.
  - intros H.
    destruct (lstrip_prefix punct (Py.lower w)) as (before & Hl & Hb).
    set (a := Py.lstrip punct (Py.lower w)) in *.
    unfold Py.rstrip in H.
    destruct (lstrip_prefix punct (Py.reverse a)) as (q & Hr & Hq).
    apply (f_equal Py.reverse) in H. rewrite reverse_reverse in H.
    rewrite H in Hr. apply (f_equal Py.reverse) in Hr.
    rewrite reverse_reverse, reverse_app, reverse_reverse in Hr.
    exists before, (Py.reverse q). split; [by rewrite Hl, Hr |].
    split; [exact Hb |]. rewrite reverse_chars. by apply List.Forall_rev.
  - intros (before & after & -> & Hb & Ha).
    rewrite lstrip_app by done.
    change ("telegram" +:+ after) with (String "t" ("elegram" +:+ after)).
    cbn [Py.lstrip]. change (punct "t") with false. cbv iota.
    change (String "t" ("elegram" +:+ after)) with ("telegram" +:+ after).
    unfold Py.rstrip. rewrite reverse_app, lstrip_app
      by (rewrite reverse_chars; by apply List.Forall_rev).
    reflexivity.
Qed.

(** X16. Which titles reach the handler (lines 197-201). The handler is
    called exactly when the first word of the title, in lower case, is
    [telegram] with any number of the characters . , ! ? : ; before and
    after it; the handler then gets the whole title. For every other first
    word the dispatcher only logs the word it found. *)
Theorem routed_titles (br : Browser) (title w : string) (rest : list string)
    (s : State) :
  Py.split title = w :: rest ->
  (telegram_token w ->
   dispatch br title s =
   (log INFO "First word of title: telegram";;
    log INFO ("Calling Telegram function with title: " +:+ title);;
    Telegram br title) s)
  /\ (~ telegram_token w ->
      dispatch br title s =
      log INFO ("First word of title: " +:+ spec_keyword w) s).
Proof.
  intros Hs.
  assert (Hw : Py.strip w = w)
    by (apply (split_token_strip title); rewrite Hs; by left).
  assert (E : dispatch br title s =
    (log INFO ("First word of title: " +:+ spec_keyword w);;
     if Py.re_match_az (spec_keyword w) && String.eqb (spec_keyword w) "telegram"
     then log INFO ("Calling Telegram function with title: " +:+ title);;
          Telegram br title
     else ret tt) s).
  { unfold dispatch. rewrite Hs. cbn [index lookup list_lookup].
    unfold bind at 1. unfold ret at 1. by rewrite Hw. }
  rewrite E. split; intros H.
  - apply telegram_token_keyword in H. rewrite H.
    change (Py.re_match_az "telegram" && String.eqb "telegram" "telegram")
      with true. cbv iota. reflexivity.
  - assert (K : spec_keyword w <> "telegram")
      by (intros K; by apply H, telegram_token_keyword).
    apply String.eqb_neq in K. rewrite K, andb_false_r.
    unfold bind, ret, log, emit. reflexivity.
Qed.

(** ** The theorems at concrete runs *)

Lemma dispatch_routes_telegram_command_witness :
  Py.split "telegram alice hello there" = ["telegram"; "alice"; "hello"; "there"]
  /\ spec_keyword "telegram" = "telegram"
  /\ dispatch blank_browser "telegram alice hello there" initial =
     (log INFO "First word of title: telegram";;
      log INFO ("Calling Telegram function with title: " +:+
                "telegram alice hello there");;
      opened <- telegram_open blank_browser ;;
      let '(context, page) := opened in
      telegram_send blank_browser context page "alice"
        (Py.join " " ["hello"; "there"])) initial.
Proof.
  split; [vm_compute; reflexivity |]. split; [vm_compute; reflexivity |].
  apply (proj1 dispatch_routes_telegram_command blank_browser
           "telegram alice hello there" "telegram" "alice" "hello" ["there"]
           initial); vm_compute; reflexivity.
Defined.

Lemma known_entry_is_skipped_witness :
  entry_exists seen_title "today" "today" seen_state = (inr true, seen_state)
  /\ (poll_cycle (journal_browser seen_title) 0 seen_state).1 = inr tt
  /\ db (poll_cycle (journal_browser seen_title) 0 seen_state).2 = db seen_state.
Proof.
  split; [vm_compute; reflexivity |].
  destruct (known_entry_is_skipped (journal_browser seen_title) 0 seen_state
              (poll_cycle (journal_browser seen_title) 0 seen_state).2
              (poll_cycle (journal_browser seen_title) 0 seen_state).1
              seen_title "today" "today") as (H1 & H2 & _).
  - vm_compute. reflexivity.
  - apply surjective_pairing.
  - vm_compute. in_list.
  - vm_compute. in_list.
  - vm_compute. in_list.
  - exact (conj H1 H2).
Defined.


Lemma login_gives_up_after_three_witness :
  (forall t, appears blank_browser t search_bar 30000 = false)
  /\ telegram_login blank_browser 1 3 initial =
     (inr false,
      extend [WaitForSelector 1 search_bar 30000 false; Reload 1;
              WaitForSelector 1 search_bar 30000 false; Reload 1;
              WaitForSelector 1 search_bar 30000 false; Reload 1] initial).
Proof.
  split; [intros t; reflexivity |].
  apply (proj1 (login_gives_up_after_three blank_browser 0 1 "alice" "hi" initial
                  (fun t => eq_refl))).
Defined.

Lemma target_not_found_aborts_witness :
  In (WaitForSelector 1 search_bar 30000 true)
     (events_since initial
        (telegram_send (journal_browser seen_title) 0 1 "alice" "hi" initial).2)
  /\ In (IsVisible 1 chat_result false)
     (events_since initial
        (telegram_send (journal_browser seen_title) 0 1 "alice" "hi" initial).2)
  /\ (telegram_send (journal_browser seen_title) 0 1 "alice" "hi" initial).1 = inr tt
  /\ last (events_since initial
        (telegram_send (journal_browser seen_title) 0 1 "alice" "hi" initial).2)
     = Some (ContextClose 0)
  /\ exists t,
       files (telegram_send (journal_browser seen_title) 0 1 "alice" "hi" initial).2
         !! telegram_session_file
       = Some (session_json (journal_browser seen_title) t).
Proof.
  assert (H1 : In (WaitForSelector 1 search_bar 30000 true)
     (events_since initial
        (telegram_send (journal_browser seen_title) 0 1 "alice" "hi" initial).2))
    by (vm_compute; in_list).
  assert (H2 : In (IsVisible 1 chat_result false)
     (events_since initial
        (telegram_send (journal_browser seen_title) 0 1 "alice" "hi" initial).2))
    by (vm_compute; in_list).
  split; [exact H1 |]. split; [exact H2 |].
  destruct (target_not_found_aborts (journal_browser seen_title) 0 1 "alice" "hi"
              initial
              (telegram_send (journal_browser seen_title) 0 1 "alice" "hi" initial).2
              (telegram_send (journal_browser seen_title) 0 1 "alice" "hi" initial).1
              (surjective_pairing _) H1 H2)
    as (R & _ & _ & _ & _ & _ & L & (t & _ & F) & _).
  split; [exact R |]. split; [exact L |]. by eexists.
Defined.

Lemma malformed_command_leaves_context_open_witness :
  (length (Py.split "telegram hi") < 3)%nat
  /\ ~ In (ContextClose 0)
          (events_since initial (Telegram blank_browser "telegram hi" initial).2).
Proof.
  split; [vm_compute; lia |].
  apply (proj1 malformed_command_leaves_context_open blank_browser "telegram hi"
           initial (Telegram blank_browser "telegram hi" initial).1).
  - vm_compute; lia.
  - by destruct (Telegram blank_browser "telegram hi" initial).
Defined.

Lemma session_bootstrap_by_site_witness :
  (files initial !! state_file = None \/ files initial !! state_file = Some EmptyString)
  /\ files initial !! telegram_session_file = None
  /\ (exists a s', main_open blank_browser initial = (inr a, s') /\ files s' !! state_file = Some "{}")
  /\ (exists context page s',
        telegram_open blank_browser initial = (inr (context, page), s')
        /\ files s' = files initial
        /\ In (NewContext None) (events_since initial s')).
Proof.
  split; [left; reflexivity |]. split; [reflexivity |]. split.
  - apply (proj1 session_bootstrap_by_site blank_browser initial). left; reflexivity.
  - apply (proj2 (proj2 session_bootstrap_by_site) blank_browser initial). reflexivity.
Defined.

Lemma saved_entry_stays_witness :
  save_entry "note" "today" "noon" (with_ledger []) =
    (inr tt, (save_entry "note" "today" "noon" (with_ledger [])).2)
  /\ (entry_exists "note" "today" "noon"
        (run_ops [OpInitDb; OpPollCycle (journal_browser seen_title) 0;
                  OpSaveEntry "other" "today" "noon"]
           (save_entry "note" "today" "noon" (with_ledger [])).2)).1 = inr true.
Proof.
  assert (S1 : save_entry "note" "today" "noon" (with_ledger []) =
    (inr tt, (save_entry "note" "today" "noon" (with_ledger [])).2))
    by (vm_compute; reflexivity).
  split; [exact S1 |].
  destruct (saved_entry_stays "note" "today" "noon" (with_ledger [])
              (save_entry "note" "today" "noon" (with_ledger [])).2 S1
              [OpInitDb; OpPollCycle (journal_browser seen_title) 0;
               OpSaveEntry "other" "today" "noon"]) as [H _].
  by rewrite H.
Defined.

Lemma insert_does_not_check_the_key_witness :
  save_entry "note" "today" "noon" (with_ledger []) =
    (inr tt, (save_entry "note" "today" "noon" (with_ledger [])).2)
  /\ save_entry "note" "today" "noon"
       (save_entry "note" "today" "noon" (with_ledger [])).2 =
     (inr tt, (save_entry "note" "today" "noon"
                 (save_entry "note" "today" "noon" (with_ledger [])).2).2)
  /\ ~ unique_keys
         (db (save_entry "note" "today" "noon"
                (save_entry "note" "today" "noon" (with_ledger [])).2).2).
Proof.
  assert (S1 : save_entry "note" "today" "noon" (with_ledger []) =
    (inr tt, (save_entry "note" "today" "noon" (with_ledger [])).2))
    by (vm_compute; reflexivity).
  assert (S2 : save_entry "note" "today" "noon"
       (save_entry "note" "today" "noon" (with_ledger [])).2 =
     (inr tt, (save_entry "note" "today" "noon"
                 (save_entry "note" "today" "noon" (with_ledger [])).2).2))
    by (vm_compute; reflexivity).
  split; [exact S1 |]. split; [exact S2 |].
  destruct (proj1 insert_does_not_check_the_key "note" "today" "noon"
              (with_ledger [])
              (save_entry "note" "today" "noon" (with_ledger [])).2
              (save_entry "note" "today" "noon"
                 (save_entry "note" "today" "noon" (with_ledger [])).2).2
              S1 S2) as (t & _ & _ & _ & U).
  exact U.
Defined.

Lemma blank_title_stops_the_loop_witness :
  Forall (fun c => Py.isspace c = true) (list_ascii_of_string " ")
  /\ entry_exists " " "today" "today" (with_ledger []) = (inr false, with_ledger [])
  /\ (poll_cycle (journal_browser " ") 0 (with_ledger [])).1 = inl IndexError
  /\ (poll_loop (journal_browser " ") 0 3 (with_ledger [])).1 = inl IndexError.
Proof.
  assert (B : Forall (fun c => Py.isspace c = true) (list_ascii_of_string " "))
    by (repeat constructor).
  split; [exact B |]. split; [vm_compute; reflexivity |].
  destruct (proj2 (blank_title_stops_the_loop (journal_browser " ") " " B)
              0%nat (with_ledger [])
              (poll_cycle (journal_browser " ") 0 (with_ledger [])).2
              (poll_cycle (journal_browser " ") 0 (with_ledger [])).1
              "today" "today") as (R & _ & _ & L).
  - apply surjective_pairing.
  - vm_compute. in_list.
  - vm_compute. in_list.
  - vm_compute. in_list.
  - vm_compute. reflexivity.
  - split; [exact R |]. by rewrite (L 2%nat).
Defined.

(** ** The further theorems at concrete runs *)


Lemma handler_always_closes_its_context_witness :
  sample_send.1 = inr tt
  /\ last (events_since initial sample_send.2) = Some (ContextClose 0).
Proof.
  destruct (handler_always_closes_its_context chat_browser 0 1 "alice" "hi"
              initial sample_send.2 sample_send.1 (surjective_pairing _))
    as (R & L & _).
  exact (conj R L).
Defined.

Lemma handler_keeps_to_its_own_witness :
  db sample_telegram.2 = db initial
  /\ Forall (own_event 0 1) (events_since initial sample_telegram.2).
Proof.
  destruct (handler_keeps_to_its_own chat_browser "telegram alice hi" initial
              sample_telegram.2 sample_telegram.1 (surjective_pairing _))
    as (D & _ & O & _).
  exact (conj D O).
Defined.

Lemma save_entry_leaves_other_keys_witness :
  save_entry "note" "today" "noon" (with_ledger []) =
    (inr tt, (save_entry "note" "today" "noon" (with_ledger [])).2)
  /\ ("other", "today", "noon") <> ("note", "today", "noon")
  /\ (entry_exists "other" "today" "noon"
        (save_entry "note" "today" "noon" (with_ledger [])).2).1
     = (entry_exists "other" "today" "noon" (with_ledger [])).1.
Proof.
  assert (S1 : save_entry "note" "today" "noon" (with_ledger []) =
    (inr tt, (save_entry "note" "today" "noon" (with_ledger [])).2))
    by (vm_compute; reflexivity).
  assert (N : ("other", "today", "noon") <> ("note", "today", "noon"))
    by discriminate.
  split; [exact S1 |]. split; [exact N |].
  exact (proj1 save_entry_leaves_other_keys "note" "today" "noon"
           "other" "today" "noon" (with_ledger []) _ S1 N).
Defined.

Lemma ids_stay_ordered_witness :
  ids_ordered (db initial)
  /\ ids_ordered
       (db (run_ops [OpInitDb; OpSaveEntry "a" "today" "noon";
                     OpSaveEntry "a" "today" "noon"] initial)).
Proof.
  assert (H : ids_ordered (db initial)) by (intros t; discriminate).
  split; [exact H |].
  exact (proj1 (ids_stay_ordered
                  [OpInitDb; OpSaveEntry "a" "today" "noon";
                   OpSaveEntry "a" "today" "noon"] initial H)).
Defined.

Lemma main_ends_in_four_ways_witness :
  main_result sample_main.1 /\ is_Some (db sample_main.2)
  /\ (main blank_browser "user" "secret" 3 blank_session).1 = inl JSONDecodeError
  /\ ((exists content,
         files blank_session !! state_file = Some content
         /\ json_loads blank_browser content = false
         /\ events_since blank_session
              (main blank_browser "user" "secret" 3 blank_session).2 = [Launch])
      \/ (exists content,
            files (main blank_browser "user" "secret" 3 blank_session).2
              !! telegram_session_file = Some content
            /\ json_loads blank_browser content = false)).
Proof.
  destruct (main_ends_in_four_ways (plain_browser "note to self") "user"
              "secret" 3 initial sample_main.2 sample_main.1
              (surjective_pairing _)) as (R & _ & _ & T & _).
  split; [exact R |]. split; [exact T |].
  assert (E : (main blank_browser "user" "secret" 3 blank_session).1
              = inl JSONDecodeError) by (vm_compute; reflexivity).
  split; [exact E |].
  destruct (main_ends_in_four_ways blank_browser "user" "secret" 3 blank_session
              (main blank_browser "user" "secret" 3 blank_session).2
              (main blank_browser "user" "secret" 3 blank_session).1
              (surjective_pairing _)) as (_ & _ & _ & _ & _ & _ & _ & J).
  exact (J E).
Defined.

Lemma list_that_never_shows_up_witness :
  (forall t, appears blank_browser t entry_list 15000 = false)
  /\ poll_loop blank_browser 0 2 initial =
     (inr tt, extend (timed_out_rounds 0 2) initial).
Proof.
  split; [intros t; reflexivity |].
  exact (list_that_never_shows_up blank_browser 0 (fun t => eq_refl) 2%nat initial).
Defined.


Lemma a_round_adds_at_most_one_row_witness :
  db sample_round.2 = db (with_ledger [])
  \/ exists t title date time,
       db (with_ledger []) = Some t
       /\ entry_exists title date time (with_ledger []) = (inr false, with_ledger [])
       /\ db sample_round.2 = Some (insert_row title date time t)
       /\ In (TextContent 0 title_text title)
            (events_since (with_ledger []) sample_round.2)
       /\ In (TextContent 0 date_text date)
            (events_since (with_ledger []) sample_round.2)
       /\ In (TextContent 0 time_text time)
            (events_since (with_ledger []) sample_round.2)
       /\ In (Log INFO (saved_message title date time))
            (events_since (with_ledger []) sample_round.2).
Proof.
  exact (a_round_adds_at_most_one_row (plain_browser "note to self") 0
           (with_ledger []) sample_round.2 sample_round.1 (surjective_pairing _)).
Defined.

Lemma stable_entry_is_saved_once_witness :
  (forall t, appears (plain_browser seen_title) t entry_list 15000 = true)
  /\ (forall t, count_of (plain_browser seen_title) t entry_list <> 0%nat)
  /\ (forall t, svg_count_of (plain_browser seen_title) t entry_list 0 = 0%nat)
  /\ (forall t, text_of (plain_browser seen_title) t title_text = seen_title)
  /\ (forall t, text_of (plain_browser seen_title) t date_text = "today")
  /\ (forall t, text_of (plain_browser seen_title) t time_text = "today")
  /\ entry_exists seen_title "today" "today" seen_state = (inr true, seen_state)
  /\ exists evs,
       poll_loop (plain_browser seen_title) 0 3 seen_state =
         (inr tt, extend evs seen_state)
       /\ Forall (journal_only 0) evs.
Proof.
  assert (H2 : forall t, count_of (plain_browser seen_title) t entry_list <> 0%nat)
    by (intros t; cbn; lia).
  assert (K : entry_exists seen_title "today" "today" seen_state
              = (inr true, seen_state)) by (vm_compute; reflexivity).
  split; [intros t; reflexivity |]. split; [exact H2 |].
  split; [intros t; reflexivity |]. split; [intros t; reflexivity |].
  split; [intros t; reflexivity |]. split; [intros t; reflexivity |].
  split; [exact K |].
  exact (proj2 (stable_entry_is_saved_once (plain_browser seen_title) 0
                  seen_title "today" "today"
                  (fun t => eq_refl) H2 (fun t => eq_refl) (fun t => eq_refl)
                  (fun t => eq_refl) (fun t => eq_refl))
           3%nat seen_state K).
Defined.

Lemma journal_session_is_kept_or_made_witness :
  (exists s',
     main_open blank_browser initial = (inr (1%nat, 2%nat), s')
     /\ files s' !! state_file = Some "{}")
  /\ (exists s',
        main_open blank_browser blank_session = (inl JSONDecodeError, s')
        /\ files s' !! state_file = Some " ").
Proof.
  split.
  - destruct (journal_session_is_kept_or_made blank_browser initial)
      as (content & r & s' & E & C & _ & F & _ & _ & _ & _ & Loads & _ & _).
    vm_compute in C. subst content.
    destruct (Loads eq_refl) as (R & _). subst r. by exists s'.
  - destruct (journal_session_is_kept_or_made blank_browser blank_session)
      as (content & r & s' & E & C & _ & F & _ & _ & _ & _ & _ & Fails & _).
    vm_compute in C. subst content.
    destruct (Fails eq_refl) as (R & _). subst r. by exists s'.
Defined.

Lemma login_fills_only_the_two_fields_witness :
  In (Click 1 submit_button) (events_since initial sample_login.2)
  /\ sample_login.1 = inr tt
  /\ last (events_since initial sample_login.2) = Some (StorageState 0 state_file)
  /\ events_since initial sample_login.2 =
     [Goto 1 "https://hole.rabbit.tech";
      IsVisible 1 "input#username" true;
      WaitForSelector 1 "input#username" 30000 true;
      Fill 1 "input#username" "user";
      WaitForSelector 1 "input#password" 30000 true;
      Fill 1 "input#password" "secret";
      Click 1 submit_button;
      WaitForLoadState 1 "load";
      StorageState 0 state_file].
Proof.
  assert (H : In (Click 1 submit_button) (events_since initial sample_login.2))
    by (vm_compute; in_list).
  split; [exact H |].
  destruct (login_fills_only_the_two_fields chat_browser "user" "secret" 0 1
              initial sample_login.2 sample_login.1 (surjective_pairing _))
    as (E & _ & _ & _ & _ & _ & _ & C & _).
  destruct (C H) as (R & L & _).
  split; [exact R |]. split; [exact L |]. exact E.
Defined.

Lemma split_and_join_round_trip_witness :
  Forall token ["hello"; "there"]
  /\ Py.split (Py.join " " ["hello"; "there"]) = ["hello"; "there"].
Proof.
  assert (T : Forall token ["hello"; "there"])
    by (repeat constructor; discriminate).
  split; [exact T |].
  exact (proj1 (proj2 split_and_join_round_trip) ["hello"; "there"] T).
Defined.

Lemma script_needs_both_credentials_witness :
  (falsy ((∅ : gmap string string) !! "RABBITHOLE_EMAIL") = true
   \/ falsy ((∅ : gmap string string) !! "RABBITHOLE_PASSWORD") = true)
  /\ script ∅ blank_browser 3 initial =
     (Exited 1,
      extend [Log ERROR
        "Failed to load environment variables. Please check the .env file."]
        initial).
Proof.
  assert (H : falsy ((∅ : gmap string string) !! "RABBITHOLE_EMAIL") = true
              \/ falsy ((∅ : gmap string string) !! "RABBITHOLE_PASSWORD") = true)
    by (left; reflexivity).
  split; [exact H |].
  exact (proj1 (script_needs_both_credentials ∅ blank_browser 3 initial) H).
Defined.

Lemma routed_titles_witness :
  Py.split "...Telegram!! bob hi" = ["...Telegram!!"; "bob"; "hi"]
  /\ telegram_token "...Telegram!!"
  /\ dispatch blank_browser "...Telegram!! bob hi" initial =
     (log INFO "First word of title: telegram";;
      log INFO ("Calling Telegram function with title: " +:+
                "...Telegram!! bob hi");;
      Telegram blank_browser "...Telegram!! bob hi") initial.
Proof.
  assert (S1 : Py.split "...Telegram!! bob hi" = ["...Telegram!!"; "bob"; "hi"])
    by (vm_compute; reflexivity).
  assert (T : telegram_token "...Telegram!!").
  { exists "...", "!!". split; [vm_compute; reflexivity |].
    split; repeat constructor. }
  split; [exact S1 |]. split; [exact T |].
  exact (proj1 (routed_titles blank_browser "...Telegram!! bob hi"
                  "...Telegram!!" ["bob"; "hi"] initial S1) T).
Defined.
